(** * Solar_Detector: a shallow embedding of [solar_houses_detector.py]

    The development follows the class [SolarHousesDetector]: the location
    resolver [_get_location_data], the property generator
    [generate_realistic_properties], the image fetcher
    [download_house_image], the scorer [analyze_solar_potential] and the
    orchestrator [process_properties].

    Conventions.
    - Python [int] is [Z] (loop indices, which [range] keeps non-negative,
      are [nat]); Python [float] is the kernel's binary64 [float]; a value
      that is an [int] on one path and a [float] on another is a [num].
    - Python [str] is [string], read as the UTF-8 bytes of the text.
    - The dict literals with a fixed key set are records whose fields carry
      the keys' names; the merged result row, where the order of the
      [**]-splices decides which value a key keeps, is a [gmap string pyval].
    - A call that can raise returns an [outcome]; code that draws random
      numbers, talks to the network or the file system, or logs, runs in
      the monad [M] over an explicit [world]. *)

From Stdlib Require Import PrimFloat Uint63 ZArith Ascii String.
From stdpp Require Import gmap strings list pretty.

Set Warnings "-inexact-float".
Local Open Scope Z_scope.

(** ** Exceptions *)

(** The subclasses of [Exception] the module can meet; [except Exception]
    catches every one of them. *)
Inductive exn :=
  | ZeroDivisionError
  | IndexError
  | KeyError
  | OSError
  | RequestException.

Inductive outcome (A : Type) :=
  | Ok (a : A)
  | Raise (e : exn).
Arguments Ok {A} a.
Arguments Raise {A} e.

(** ** Strings *)

Module PyStr.

Definition is_upper (c : ascii) : bool :=
  let n := N_of_ascii c in ((65 <=? n) && (n <=? 90))%N.

(** [str.lower] on one character: [A-Z] moves to [a-z], every other byte
    stays.  The five patterns of the resolver are made of the letters
    [a b e g l m n o r s t u w y], a blank and a full stop, and no
    character outside [A-Z] lowers to one of those, so the byte-wise
    reading takes the same branch as [str.lower] on any text. *)
Definition lower_char (c : ascii) : ascii :=
  if is_upper c then ascii_of_N (N_of_ascii c + 32) else c.

Fixpoint lower (s : string) : string :=
  match s with
  | EmptyString => EmptyString
  | String c s' => String (lower_char c) (lower s')
  end.

Fixpoint startswith (sub s : string) : bool :=
  match sub, s with
  | EmptyString, _ => true
  | String a sub', String b s' => if decide (a = b) then startswith sub' s' else false
  | String _ _, EmptyString => false
  end.

(** [sub in s] *)
Fixpoint contains (sub s : string) : bool :=
  startswith sub s ||
  match s with
  | EmptyString => false
  | String _ s' => contains sub s'
  end.

(** [s.split(sep)] for a one-character separator. *)
Fixpoint split (sep : ascii) (s : string) : list string :=
  match s with
  | EmptyString => [EmptyString]
  | String c s' =>
      if decide (c = sep) then EmptyString :: split sep s'
      else match split sep s' with
           | piece :: rest => String c piece :: rest
           | [] => [String c EmptyString]
           end
  end.

(** White space of [str.strip()] among the bytes below 128:
    tab to carriage return, the four separators 28..31, and the blank. *)
Definition is_space (c : ascii) : bool :=
  let n := N_of_ascii c in
  (((9 <=? n) && (n <=? 13)) || ((28 <=? n) && (n <=? 32)))%N.

Fixpoint lstrip (s : string) : string :=
  match s with
  | EmptyString => EmptyString
  | String c s' => if is_space c then lstrip s' else s
  end.

Fixpoint rstrip (s : string) : string :=
  match s with
  | EmptyString => EmptyString
  | String c s' =>
      match rstrip s' with
      | EmptyString => if is_space c then EmptyString else String c EmptyString
      | t => String c t
      end
  end.

Definition strip (s : string) : string := rstrip (lstrip s).

(** [str(n)] for a non-negative integer. *)
Definition str_of_nat (n : nat) : string := pretty n.

Fixpoint zeros (k : nat) : string :=
  match k with
  | O => EmptyString
  | S k' => String "0" (zeros k')
  end.

(** [f"{n:06d}"] for a non-negative integer: the decimal digits, padded
    on the left with zeros up to six characters. *)
Definition format_06d (n : nat) : string :=
  let digits := str_of_nat n in
  zeros (6 - String.length digits) +:+ digits.

End PyStr.

(** ** Records of the resolver *)

Record Bounds := {
  north : float;
  south : float;
  east : float;
  west : float
}.

(** One entry of the ['addresses'] list: keys [address], [has_solar], [lat], [lon]. *)
Record AddrData := {
  addr_address : string;
  addr_has_solar : bool;
  addr_lat : float;
  addr_lon : float
}.

Record LocationData := {
  bounds : Bounds;
  addresses : list AddrData;
  cities : list string
}.

(** [xs[i]]: [IndexError] out of range. *)
Definition index {A} (xs : list A) (i : nat) : outcome A :=
  match xs !! i with
  | Some x => Ok x
  | None => Raise IndexError
  end.

Definition st_tammany_data : LocationData := {|
  bounds := {| north := 30.7; south := 30.1; east := -89.7; west := -90.5 |};
  addresses := [
    {| addr_address := "1234 Tyler St, Covington, LA 70433"; addr_has_solar := true; addr_lat := 30.4755; addr_lon := -90.1009 |};
    {| addr_address := "5678 Jefferson Ave, Covington, LA 70433"; addr_has_solar := true; addr_lat := 30.4789; addr_lon := -90.0956 |};
    {| addr_address := "9012 Boston St, Covington, LA 70433"; addr_has_solar := false; addr_lat := 30.4723; addr_lon := -90.1023 |};
    {| addr_address := "3456 Florida St, Covington, LA 70433"; addr_has_solar := true; addr_lat := 30.4812; addr_lon := -90.0887 |};
    {| addr_address := "7890 Lakeshore Dr, Mandeville, LA 70448"; addr_has_solar := true; addr_lat := 30.3589; addr_lon := -90.0654 |};
    {| addr_address := "2345 Girod St, Mandeville, LA 70448"; addr_has_solar := false; addr_lat := 30.3623; addr_lon := -90.0712 |};
    {| addr_address := "6789 Monroe St, Mandeville, LA 70448"; addr_has_solar := true; addr_lat := 30.3556; addr_lon := -90.0598 |};
    {| addr_address := "1234 Front St, Slidell, LA 70458"; addr_has_solar := false; addr_lat := 30.2756; addr_lon := -89.7812 |};
    {| addr_address := "5678 2nd St, Slidell, LA 70458"; addr_has_solar := true; addr_lat := 30.2789; addr_lon := -89.7756 |};
    {| addr_address := "9012 3rd St, Slidell, LA 70458"; addr_has_solar := false; addr_lat := 30.2723; addr_lon := -89.7834 |}
  ];
  cities := ["Covington"; "Mandeville"; "Slidell"; "Hammond"; "Abita Springs"; "Lacombe"; "Pearl River"; "Folsom"]
|}%float%string.

Definition new_orleans_data : LocationData := {|
  bounds := {| north := 30.1; south := 29.8; east := -89.8; west := -90.2 |};
  addresses := [
    {| addr_address := "1234 Magazine St, New Orleans, LA 70130"; addr_has_solar := true; addr_lat := 29.9258; addr_lon := -90.0801 |};
    {| addr_address := "5678 St. Charles Ave, New Orleans, LA 70130"; addr_has_solar := false; addr_lat := 29.9289; addr_lon := -90.0756 |};
    {| addr_address := "9012 Canal St, New Orleans, LA 70112"; addr_has_solar := true; addr_lat := 29.9623; addr_lon := -90.0723 |};
    {| addr_address := "3456 Bourbon St, New Orleans, LA 70116"; addr_has_solar := false; addr_lat := 29.9589; addr_lon := -90.0654 |};
    {| addr_address := "7890 Royal St, New Orleans, LA 70116"; addr_has_solar := true; addr_lat := 29.9612; addr_lon := -90.0623 |}
  ];
  cities := ["New Orleans"; "Metairie"; "Kenner"; "Chalmette"; "Harvey"]
|}%float%string.

Definition baton_rouge_data : LocationData := {|
  bounds := {| north := 30.6; south := 30.3; east := -91.0; west := -91.3 |};
  addresses := [
    {| addr_address := "1234 Government St, Baton Rouge, LA 70802"; addr_has_solar := true; addr_lat := 30.4515; addr_lon := -91.1873 |};
    {| addr_address := "5678 Perkins Rd, Baton Rouge, LA 70810"; addr_has_solar := false; addr_lat := 30.4089; addr_lon := -91.1456 |};
    {| addr_address := "9012 College Dr, Baton Rouge, LA 70808"; addr_has_solar := true; addr_lat := 30.4123; addr_lon := -91.1523 |};
    {| addr_address := "3456 Highland Rd, Baton Rouge, LA 70808"; addr_has_solar := false; addr_lat := 30.4189; addr_lon := -91.1554 |}
  ];
  cities := ["Baton Rouge"; "Baker"; "Zachary"; "Central"; "Denham Springs"]
|}%float%string.

Definition default_bounds : Bounds :=
  {| north := 30.5; south := 30.0; east := -90.0; west := -90.5 |}%float.

Definition default_addresses (location : string) : list AddrData := [
  {| addr_address := "1234 Main St, " +:+ location; addr_has_solar := true; addr_lat := 30.4; addr_lon := -90.1 |};
  {| addr_address := "5678 Oak Ave, " +:+ location; addr_has_solar := false; addr_lat := 30.41; addr_lon := -90.11 |};
  {| addr_address := "9012 Pine St, " +:+ location; addr_has_solar := true; addr_lat := 30.39; addr_lon := -90.09 |}
]%float.

(** [SolarHousesDetector._get_location_data] *)
Definition _get_location_data (location : string) : outcome LocationData :=
  let location_lower := PyStr.lower location in
  if PyStr.contains "st. tammany" location_lower || PyStr.contains "st tammany" location_lower then
    Ok st_tammany_data
  else if PyStr.contains "new orleans" location_lower || PyStr.contains "nola" location_lower then
    Ok new_orleans_data
  else if PyStr.contains "baton rouge" location_lower then
    Ok baton_rouge_data
  else
    match index (PyStr.split "," location) 0 with
    | Ok head =>
        Ok {| bounds := default_bounds;
              addresses := default_addresses location;
              cities := [PyStr.strip head] |}
    | Raise e => Raise e
    end.

(** ** Numbers *)

(** A Python number that is an [int] on some paths and a [float] on others. *)
Inductive num :=
  | Int (z : Z)
  | Float (f : float).

(** [float(z)] *)
Definition float_of_Z (z : Z) : float :=
  match z with
  | Zneg _ => PrimFloat.opp (PrimFloat.of_uint63 (Uint63.of_Z (- z)))
  | _ => PrimFloat.of_uint63 (Uint63.of_Z z)
  end.

Definition to_float (x : num) : float :=
  match x with
  | Int z => float_of_Z z
  | Float f => f
  end.

(** [x * y]: an [int] when both are, a [float] otherwise. *)
Definition num_mul (x y : num) : num :=
  match x, y with
  | Int a, Int b => Int (a * b)
  | _, _ => Float (PrimFloat.mul (to_float x) (to_float y))
  end.

(** [x == 0] *)
Definition num_is_zero (x : num) : bool :=
  match x with
  | Int z => bool_decide (z = 0)
  | Float f => PrimFloat.eqb f 0%float
  end.

(** [x / y]: true division, [ZeroDivisionError] on a zero divisor. *)
Definition num_truediv (x y : num) : outcome float :=
  if num_is_zero y then Raise ZeroDivisionError
  else Ok (PrimFloat.div (to_float x) (to_float y)).

(** ** What the module takes from the Python runtime

    The generator of the [random] module, [round(x, 1)] and the text of a
    float in an f-string are the runtime's, not this repository's: the
    development is parametric in them.  [randint a b] stays within [a..b]
    and [randbelow n] below [n], as the [random] module documents. *)
Class PyRuntime := {
  rng : Type;
  randint : Z → Z → rng → Z * rng;
  uniform : float → float → rng → float * rng;
  random : rng → float * rng;
  randbelow : nat → rng → nat * rng;
  round1 : float → float;
  float_str : float → string;
  randint_range : ∀ a b g, a ≤ b → a ≤ (randint a b g).1 ≤ b;
  randbelow_lt : ∀ n g, (0 < n)%nat → ((randbelow n g).1 < n)%nat
}.

(** ** Values and rows *)

Inductive pyval :=
  | VNone
  | VBool (b : bool)
  | VNum (x : num)
  | VStr (s : string).

Definition VInt (z : Z) : pyval := VNum (Int z).
Definition VFloat (f : float) : pyval := VNum (Float f).

(** The dict built by [generate_realistic_properties], key by key. *)
Record PropertyRecord := {
  property_id : string;
  owner_name : string;
  address : string;
  latitude : float;
  longitude : float;
  has_solar_panels : bool;
  estimated_panel_count : Z;
  panel_area_sq_meters : num;
  installation_year : option Z;
  system_size_kw : num;
  estimated_savings_annual : Z;
  property_value : Z;
  roof_type : string;
  roof_age_years : Z
}.

(** The dict built by [analyze_solar_potential]. *)
Record Analysis := {
  solar_potential_score : Z;
  recommended_system_size_kw : num;
  estimated_installation_cost : num;
  estimated_annual_savings : Z;
  payback_period_years : num;
  roi_percentage : num
}.

(** ** The outside world *)

Inductive http_reply :=
  | Response (status_code : Z) (content : string)
  | Failed (e : exn).

(** What the network, the disk and the clock answer; [k] counts the
    interactions of the run so far. *)
Record Env := {
  http_get : nat → float → float → Z → http_reply;
  write_fails : nat → string → option exn;
  isoformat_now : nat → string
}.

Inductive log_msg :=
  | MsgStarting (location : string)
  | MsgRule
  | MsgStep1
  | MsgGenerated (n : nat)
  | MsgStep2
  | MsgProcessing (i n : nat) (addr : string)
  | MsgImageDownloaded (path : string)
  | MsgDownloadFailed (status_code : Z)
  | MsgDownloadError (e : exn)
  | MsgProcessingError (pid : string) (e : exn)
  | MsgResultsSaved (path : string)
  | MsgSummarySaved (path : string)
  | MsgReportSaved (path : string)
  | MsgMapSaved (path : string)
  | MsgMapError (e : exn).

Inductive log_level := INFO | WARNING | ERROR.

Inductive event :=
  | EvHttpGet (center : float * float) (zoom : Z) (key : string)
  | EvImageWritten (path : string) (content : string)
  | EvCsvWritten (path : string) (rows : list (gmap string pyval))
  | EvReportWritten (path : string)
  | EvMapSaved (path : string)
  | EvSleep
  | EvLog (level : log_level) (msg : log_msg).

Section Detector.

Context {rt : PyRuntime}.

Record world := {
  w_rng : rng;
  w_tick : nat;
  w_events : list event
}.

(** ** The monad of the detector's methods *)

Definition M (A : Type) : Type := world → outcome A * world.

Definition ret {A} (a : A) : M A := λ w, (Ok a, w).

Definition bind {A B} (m : M A) (k : A → M B) : M B :=
  λ w, match m w with
       | (Ok a, w') => k a w'
       | (Raise e, w') => (Raise e, w')
       end.

Definition raise {A} (e : exn) : M A := λ w, (Raise e, w).

Definition lift {A} (r : outcome A) : M A := λ w, (r, w).

(** [try: body except Exception as e: handler e] *)
Definition try_except {A} (body : M A) (handler : exn → M A) : M A :=
  λ w, match body w with
       | (Ok a, w') => (Ok a, w')
       | (Raise e, w') => handler e w'
       end.

Definition emit (ev : event) : M unit :=
  λ w, (Ok tt, {| w_rng := w_rng w; w_tick := w_tick w; w_events := w_events w ++ [ev] |}).

Definition log (level : log_level) (msg : log_msg) : M unit := emit (EvLog level msg).

(** One interaction with the outside: the answer of the current tick. *)
Definition tick : M nat :=
  λ w, (Ok (w_tick w), {| w_rng := w_rng w; w_tick := S (w_tick w); w_events := w_events w |}).

Definition draw {A} (f : rng → A * rng) : M A :=
  λ w, let '(a, g) := f (w_rng w) in
       (Ok a, {| w_rng := g; w_tick := w_tick w; w_events := w_events w |}).

End Detector.

Notation "'let*' x ':=' m 'in' k" := (bind m (λ x, k))
  (at level 10, x name, m at level 100, k at level 200, only parsing).

Section Generator.

Context {rt : PyRuntime}.

Definition random_randint (a b : Z) : M Z := draw (randint a b).
Definition random_uniform (a b : float) : M float := draw (uniform a b).
Definition random_random : M float := draw random.

(** [random.choice(xs)]: [IndexError] on an empty sequence. *)
Definition random_choice {A} (xs : list A) : M A :=
  match xs with
  | [] => raise IndexError
  | _ => let* k := draw (randbelow (length xs)) in lift (index xs k)
  end.

(** [draw if cond else other] *)
Definition if_else {A} (cond : bool) (draw_it : M A) (other : A) : M A :=
  if cond then draw_it else ret other.

Definition roof_types : list string := ["Asphalt Shingle"; "Metal"; "Tile"; "Slate"].
Definition street_names : list string := ["Main"; "Oak"; "Pine"; "Cedar"; "Maple"].

(** The body of the [for i in range(count)] loop. *)
Definition make_property (location_data : LocationData) (i : nat) : M PropertyRecord :=
  let real_addresses := addresses location_data in
  if bool_decide (i < length real_addresses)%nat then
    let* addr_data := lift (index real_addresses i) in
    let has_solar := addr_has_solar addr_data in
    let* panel_count := if_else has_solar (random_randint 15 45) 0 in
    let* panel_area := if_else has_solar (let* x := random_uniform 25 75 in ret (Float x)) (Int 0) in
    let* year := if_else has_solar (let* y := random_randint 2018 2023 in ret (Some y)) None in
    let* size := if_else has_solar (let* x := random_uniform 5.0 15.0 in ret (Float (round1 x))) (Int 0) in
    let* savings := if_else has_solar (random_randint 800 2500) 0 in
    let* value := random_randint 200000 600000 in
    let* roof := random_choice roof_types in
    let* age := random_randint 5 25 in
    ret {| property_id := "PROP_" +:+ PyStr.format_06d (i + 1);
           owner_name := "Property Owner " +:+ PyStr.str_of_nat (i + 1);
           address := addr_address addr_data;
           latitude := addr_lat addr_data;
           longitude := addr_lon addr_data;
           has_solar_panels := has_solar;
           estimated_panel_count := panel_count;
           panel_area_sq_meters := panel_area;
           installation_year := year;
           system_size_kw := size;
           estimated_savings_annual := savings;
           property_value := value;
           roof_type := roof;
           roof_age_years := age |}
  else
    let bounds := bounds location_data in
    let* lat := random_uniform (south bounds) (north bounds) in
    let* lon := random_uniform (west bounds) (east bounds) in
    let* r := random_random in
    let has_solar := PrimFloat.ltb r 0.3 in
    let* number := random_randint 100 9999 in
    let* street := random_choice street_names in
    let* city := random_choice (cities location_data) in
    let* panel_count := if_else has_solar (random_randint 15 45) 0 in
    let* panel_area := if_else has_solar (let* x := random_uniform 25 75 in ret (Float x)) (Int 0) in
    let* year := if_else has_solar (let* y := random_randint 2018 2023 in ret (Some y)) None in
    let* size := if_else has_solar (let* x := random_uniform 5.0 15.0 in ret (Float (round1 x))) (Int 0) in
    let* savings := if_else has_solar (random_randint 800 2500) 0 in
    let* value := random_randint 200000 600000 in
    let* roof := random_choice roof_types in
    let* age := random_randint 5 25 in
    ret {| property_id := "PROP_" +:+ PyStr.format_06d (i + 1);
           owner_name := "Property Owner " +:+ PyStr.str_of_nat (i + 1);
           address := pretty number +:+ " " +:+ street +:+ " St, " +:+ city;
           latitude := lat;
           longitude := lon;
           has_solar_panels := has_solar;
           estimated_panel_count := panel_count;
           panel_area_sq_meters := panel_area;
           installation_year := year;
           system_size_kw := size;
           estimated_savings_annual := savings;
           property_value := value;
           roof_type := roof;
           roof_age_years := age |}.

(** [for i in range(...): ...; properties.append(property_data)] *)
Fixpoint generate_loop (location_data : LocationData) (indices : list nat)
    (properties : list PropertyRecord) : M (list PropertyRecord) :=
  match indices with
  | [] => ret properties
  | i :: rest =>
      let* property_data := make_property location_data i in
      generate_loop location_data rest (properties ++ [property_data])
  end.

(** [SolarHousesDetector.generate_realistic_properties] *)
Definition generate_realistic_properties (count : Z) (location : string)
    : M (list PropertyRecord) :=
  let* location_data := lift (_get_location_data location) in
  generate_loop location_data (seq 0 (Z.to_nat count)) [].

End Generator.

(** ** The image fetcher *)

Section Fetcher.

Context {rt : PyRuntime} (env : Env) (api_key output_dir : string).

(** [requests.get(self.maps_static_api, params=params, timeout=30)] *)
Definition requests_get (latitude longitude : float) (zoom_level : Z) : M (Z * string) :=
  let* k := tick in
  let* _ := emit (EvHttpGet (latitude, longitude) zoom_level api_key) in
  match http_get env k latitude longitude zoom_level with
  | Response status_code content => ret (status_code, content)
  | Failed e => raise e
  end.

(** [with open(filepath, 'wb') as f: f.write(content)] *)
Definition write_image (filepath content : string) : M unit :=
  let* k := tick in
  match write_fails env k filepath with
  | Some e => raise e
  | None => emit (EvImageWritten filepath content)
  end.

Definition image_path (latitude longitude : float) (zoom_level : Z) : string :=
  let filename := "house_" +:+ float_str latitude +:+ "_" +:+ float_str longitude
                  +:+ "_zoom" +:+ pretty zoom_level +:+ ".png" in
  output_dir +:+ "/house_images/" +:+ filename.

(** [SolarHousesDetector.download_house_image] *)
Definition download_house_image (latitude longitude : float) (zoom_level : Z)
    : M (option string) :=
  try_except
    (let* response := requests_get latitude longitude zoom_level in
     if bool_decide (response.1 = 200) then
       let filepath := image_path latitude longitude zoom_level in
       let* _ := write_image filepath response.2 in
       let* _ := log INFO (MsgImageDownloaded filepath) in
       ret (Some filepath)
     else
       let* _ := log WARNING (MsgDownloadFailed response.1) in
       ret None)
    (λ e,
       let* _ := log ERROR (MsgDownloadError e) in
       ret None).

End Fetcher.

(** ** The scorer *)

Definition roof_bonus : gmap string Z :=
  {[ "Asphalt Shingle" := 20; "Metal" := 25; "Tile" := 15; "Slate" := 10 ]}.

(** [base_score] as it stands before the clamp (source lines 225-246). *)
Definition base_score (property_data : PropertyRecord) : Z :=
  let base_score := 50 in
  let base_score := base_score + default 0 (roof_bonus !! roof_type property_data) in
  let base_score :=
    if bool_decide (roof_age_years property_data < 10) then base_score + 15
    else if bool_decide (roof_age_years property_data < 20) then base_score + 10
    else base_score in
  let base_score :=
    if bool_decide (property_value property_data > 400000) then base_score + 15
    else if bool_decide (property_value property_data > 300000) then base_score + 10
    else base_score in
  base_score.

Section Scorer.

Context {rt : PyRuntime}.

(** [SolarHousesDetector.analyze_solar_potential]; each branch assigns
    all six keys of [analysis], so the zeros it starts from never show. *)
Definition analyze_solar_potential (property_data : PropertyRecord) : M Analysis :=
  if has_solar_panels property_data then
    ret {| solar_potential_score := 100;
           recommended_system_size_kw := system_size_kw property_data;
           estimated_installation_cost := num_mul (system_size_kw property_data) (Int 3000);
           estimated_annual_savings := estimated_savings_annual property_data;
           payback_period_years := Int 0;
           roi_percentage := Int 100 |}
  else
    let score := Z.min 100 (base_score property_data) in
    let* x := random_uniform 6.0 12.0 in
    let size := Float (round1 x) in
    let cost := num_mul size (Int 3000) in
    let* savings := random_randint 600 1800 in
    let* years := lift (num_truediv cost (Int savings)) in
    let* ratio := lift (num_truediv (Int (savings * 20)) cost) in
    ret {| solar_potential_score := score;
           recommended_system_size_kw := size;
           estimated_installation_cost := cost;
           estimated_annual_savings := savings;
           payback_period_years := Float (round1 years);
           roi_percentage := Float (round1 (PrimFloat.mul ratio (float_of_Z 100))) |}.

End Scorer.

(** ** The orchestrator *)

Definition property_row (p : PropertyRecord) : gmap string pyval :=
  list_to_map [
    ("property_id", VStr (property_id p));
    ("owner_name", VStr (owner_name p));
    ("address", VStr (address p));
    ("latitude", VFloat (latitude p));
    ("longitude", VFloat (longitude p));
    ("has_solar_panels", VBool (has_solar_panels p));
    ("estimated_panel_count", VInt (estimated_panel_count p));
    ("panel_area_sq_meters", VNum (panel_area_sq_meters p));
    ("installation_year", from_option VInt VNone (installation_year p));
    ("system_size_kw", VNum (system_size_kw p));
    ("estimated_savings_annual", VInt (estimated_savings_annual p));
    ("property_value", VInt (property_value p));
    ("roof_type", VStr (roof_type p));
    ("roof_age_years", VInt (roof_age_years p)) ].

Definition analysis_row (a : Analysis) : gmap string pyval :=
  list_to_map [
    ("solar_potential_score", VInt (solar_potential_score a));
    ("recommended_system_size_kw", VNum (recommended_system_size_kw a));
    ("estimated_installation_cost", VNum (estimated_installation_cost a));
    ("estimated_annual_savings", VInt (estimated_annual_savings a));
    ("payback_period_years", VNum (payback_period_years a));
    ("roi_percentage", VNum (roi_percentage a)) ].

(** [x is not None] *)
Definition is_not_None {A} (x : option A) : bool :=
  match x with Some _ => true | None => false end.

(** [{**d, **later}]: the keys of [later] win. *)
Definition splice (d later : gmap string pyval) : gmap string pyval := later ∪ d.

(** The display [{**property_data, 'house_image_path': ..., 'image_downloaded': ...,
    **solar_analysis, 'processed_at': ...}], filled from left to right. *)
Definition result_row (property_data : PropertyRecord) (house_image_path : option string)
    (solar_analysis : Analysis) (processed_at : string) : gmap string pyval :=
  let d := property_row property_data in
  let d := <["house_image_path" := from_option VStr VNone house_image_path]> d in
  let d := <["image_downloaded" := VBool (is_not_None house_image_path)]> d in
  let d := splice d (analysis_row solar_analysis) in
  <["processed_at" := VStr processed_at]> d.

(** [row[key]] *)
Definition getitem (row : gmap string pyval) (key : string) : outcome pyval :=
  match row !! key with
  | Some v => Ok v
  | None => Raise KeyError
  end.

(** [row.get(key, fallback)] *)
Definition get (row : gmap string pyval) (key : string) (fallback : pyval) : pyval :=
  default fallback (row !! key).

Section Orchestrator.

Context {rt : PyRuntime} (env : Env) (api_key output_dir : string).

(** The [try] block of the loop, up to the [append]. *)
Definition process_one (property_data : PropertyRecord) : M (gmap string pyval) :=
  let* house_image_path :=
    download_house_image env api_key output_dir (latitude property_data) (longitude property_data) 19 in
  let* solar_analysis := analyze_solar_potential property_data in
  let* k := tick in
  ret (result_row property_data house_image_path solar_analysis (isoformat_now env k)).

(** [for i, property_data in enumerate(properties): try: ... except Exception: continue] *)
Fixpoint process_loop (total : nat) (i : nat) (properties : list PropertyRecord)
    (results : list (gmap string pyval)) : M (list (gmap string pyval)) :=
  match properties with
  | [] => ret results
  | property_data :: rest =>
      let* _ := log INFO (MsgProcessing (i + 1) total (address property_data)) in
      let* results :=
        try_except
          (let* result := process_one property_data in
           let results := results ++ [result] in
           let* _ := emit EvSleep in
           ret results)
          (λ e,
             let* _ := log ERROR (MsgProcessingError (property_id property_data) e) in
             ret results) in
      process_loop total (S i) rest results
  end.

(** [DataFrame.to_csv(path, index=False)] *)
Definition to_csv (path : string) (rows : list (gmap string pyval)) : M unit :=
  let* k := tick in
  match write_fails env k path with
  | Some e => raise e
  | None => emit (EvCsvWritten path rows)
  end.

(** One row of [summary_data]. *)
Definition summary_row (row : gmap string pyval) : M (gmap string pyval) :=
  let* pid := lift (getitem row "property_id") in
  let* owner := lift (getitem row "owner_name") in
  let* addr := lift (getitem row "address") in
  let* lat := lift (getitem row "latitude") in
  let* lon := lift (getitem row "longitude") in
  ret (list_to_map [
         ("property_id", pid);
         ("owner_name", owner);
         ("address", addr);
         ("latitude", lat);
         ("longitude", lon);
         ("house_image_path", get row "house_image_path" (VStr ""));
         ("has_solar_panels", get row "has_solar_panels" (VBool false));
         ("estimated_panel_count", get row "estimated_panel_count" (VInt 0));
         ("system_size_kw", get row "system_size_kw" (VInt 0));
         ("installation_year", get row "installation_year" (VStr ""));
         ("solar_potential_score", get row "solar_potential_score" (VInt 0));
         ("recommended_system_size_kw", get row "recommended_system_size_kw" (VInt 0));
         ("estimated_installation_cost", get row "estimated_installation_cost" (VInt 0));
         ("estimated_annual_savings", get row "estimated_annual_savings" (VInt 0));
         ("payback_period_years", get row "payback_period_years" (VInt 0));
         ("roi_percentage", get row "roi_percentage" (VInt 0));
         ("property_value", get row "property_value" (VInt 0));
         ("roof_type", get row "roof_type" (VStr ""));
         ("roof_age_years", get row "roof_age_years" (VInt 0));
         ("image_downloaded", get row "image_downloaded" (VBool false));
         ("processed_at", get row "processed_at" (VStr "")) ]).

Fixpoint summary_rows (rows : list (gmap string pyval)) : M (list (gmap string pyval)) :=
  match rows with
  | [] => ret []
  | row :: rest =>
      let* s := summary_row row in
      let* ss := summary_rows rest in
      ret (s :: ss)
  end.

(** [SolarHousesDetector._generate_reports]; the text of the report is
    left out, the write of the file is kept. *)
Definition _generate_reports (results : list (gmap string pyval)) : M unit :=
  match results with
  | [] => ret tt
  | _ =>
      let report_path := output_dir +:+ "/reports/solar_houses_report.md" in
      let* k := tick in
      match write_fails env k report_path with
      | Some e => raise e
      | None =>
          let* _ := emit (EvReportWritten report_path) in
          log INFO (MsgReportSaved report_path)
      end
  end.

(** [SolarHousesDetector._create_interactive_map]; the markers are left
    out, the save of the file and the catch-all handler are kept. *)
Definition _create_interactive_map (results : list (gmap string pyval)) : M (option string) :=
  try_except
    (let map_path := output_dir +:+ "/interactive_map.html" in
     let* k := tick in
     match write_fails env k map_path with
     | Some e => raise e
     | None =>
         let* _ := emit (EvMapSaved map_path) in
         let* _ := log INFO (MsgMapSaved map_path) in
         ret (Some map_path)
     end)
    (λ e,
       let* _ := log ERROR (MsgMapError e) in
       ret None).

(** [SolarHousesDetector.process_properties]; the returned frame is the
    list [results], one row per dict. *)
Definition process_properties (max_properties : Z) (location : string)
    : M (list (gmap string pyval)) :=
  let* _ := log INFO (MsgStarting location) in
  let* _ := log INFO MsgRule in
  let* _ := log INFO MsgStep1 in
  let* properties := generate_realistic_properties max_properties location in
  let* _ := log INFO (MsgGenerated (length properties)) in
  let* _ := log INFO MsgStep2 in
  let* results := process_loop (length properties) 0 properties [] in
  match results with
  | [] => ret results
  | _ =>
      let results_csv := output_dir +:+ "/data/solar_houses_results.csv" in
      let* _ := to_csv results_csv results in
      let* summary_data := summary_rows results in
      let summary_csv := output_dir +:+ "/data/solar_houses_summary.csv" in
      let* _ := to_csv summary_csv summary_data in
      let* _ := log INFO (MsgResultsSaved results_csv) in
      let* _ := log INFO (MsgSummarySaved summary_csv) in
      let* _ := _generate_reports results in
      let* _ := _create_interactive_map results in
      ret results
  end.

End Orchestrator.

(** ** A concrete runtime and a concrete outside world, for examples *)

Module Demo.

(** A linear congruential generator on [Z]. *)
Definition next (g : Z) : Z := (g * 1103515245 + 12345) mod 2147483648.

Definition unit_float (g : Z) : float :=
  PrimFloat.div (float_of_Z (g mod 1024)) 1024.

Definition demo_randint (a b : Z) (g : Z) : Z * Z :=
  (a + g mod (b - a + 1), next g).

Definition demo_uniform (a b : float) (g : Z) : float * Z :=
  (PrimFloat.add a (PrimFloat.mul (PrimFloat.sub b a) (unit_float g)), next g).

Definition demo_random (g : Z) : float * Z := (unit_float g, next g).

Definition demo_randbelow (n : nat) (g : Z) : nat * Z :=
  (Z.to_nat (g mod Z.of_nat n), next g).

(** Rounds a non-negative float of moderate size to one decimal:
    adding and subtracting [2^52] rounds [10 x] to an integer. *)
Definition demo_round1 (x : float) : float :=
  let big := 4503599627370496%float in
  PrimFloat.div (PrimFloat.sub (PrimFloat.add (PrimFloat.mul x 10) big) big) 10.

(** The integer nearest to a float of moderate size. *)
Definition nearest (x : float) : Z :=
  let big := 4503599627370496%float in
  let y := PrimFloat.abs x in
  let r := PrimFloat.sub (PrimFloat.add y big) big in
  let m := Uint63.to_Z (PrimFloat.normfr_mantissa (fst (PrimFloat.frshiftexp r))) in
  let e := Uint63.to_Z (snd (PrimFloat.frshiftexp r)) - 2101 in
  let n := Z.shiftl m (e - 53) in
  if PrimFloat.ltb x 0 then - n else n.

Fixpoint drop_zeros (fuel : nat) (frac : Z) (width : nat) : string :=
  match fuel with
  | O => PyStr.zeros (width - String.length (pretty frac)) +:+ pretty frac
  | S fuel' =>
      if bool_decide (1 < width)%nat && bool_decide (frac mod 10 = 0)
      then drop_zeros fuel' (frac / 10) (width - 1)
      else PyStr.zeros (width - String.length (pretty frac)) +:+ pretty frac
  end.

(** The text of a float to four decimals, trailing zeros dropped: the
    text Python prints for the coordinates of the curated addresses. *)
Definition demo_float_str (x : float) : string :=
  let n := nearest (PrimFloat.mul x 10000) in
  let a := Z.abs n in
  (if bool_decide (n < 0) then "-" else "") +:+ pretty (a / 10000) +:+ "."
    +:+ drop_zeros 3 (a mod 10000) 4.

Lemma demo_randint_range a b g : a ≤ b → a ≤ (demo_randint a b g).1 ≤ b.
Proof.
  intros Hab. unfold demo_randint. cbn [fst].
  pose proof (Z.mod_pos_bound g (b - a + 1) ltac:(lia)). lia.
Qed.

Lemma demo_randbelow_lt n g : (0 < n)%nat → ((demo_randbelow n g).1 < n)%nat.
Proof.
  intros Hn. unfold demo_randbelow. cbn [fst].
  pose proof (Z.mod_pos_bound g (Z.of_nat n) ltac:(lia)). lia.
Qed.

Definition runtime : PyRuntime := {|
  rng := Z;
  randint := demo_randint;
  uniform := demo_uniform;
  random := demo_random;
  randbelow := demo_randbelow;
  round1 := demo_round1;
  float_str := demo_float_str;
  randint_range := demo_randint_range;
  randbelow_lt := demo_randbelow_lt
|}.

Definition world0 (seed : Z) : @world runtime :=
  @Build_world runtime seed 0 [].

Definition timestamp (k : nat) : string := "2024-06-01T12:00:00." +:+ PyStr.format_06d k.

(** No network: every request fails in transport; the disk works. *)
Definition offline : Env := {|
  http_get := λ _ _ _ _, Failed RequestException;
  write_fails := λ _ _, None;
  isoformat_now := timestamp
|}.

(** The endpoint answers 200 to a request on an even tick and 403 on an
    odd one; the disk works. *)
Definition flaky : Env := {|
  http_get := λ k _ _ _, if Nat.even k then Response 200 "PNG" else Response 403 "";
  write_fails := λ _ _, None;
  isoformat_now := timestamp
|}.

(** The endpoint answers 200; the image directory cannot be written. *)
Definition disk_full : Env := {|
  http_get := λ _ _ _ _, Response 200 "PNG";
  write_fails := λ _ _, Some OSError;
  isoformat_now := timestamp
|}.

(** The run returned, and returned [n] rows. *)
Definition returned (n : nat) (run : outcome (list (gmap string pyval)) * @world runtime)
    : bool :=
  match run.1 with
  | Ok rows => Nat.eqb (length rows) n
  | Raise _ => false
  end.

(** A house without panels: metal roof, five years old, worth 500000. *)
Definition metal_house : PropertyRecord := {|
  property_id := "PROP_000042";
  owner_name := "Property Owner 42";
  address := "4242 Oak St, Metairie";
  latitude := 29.99;
  longitude := -90.15;
  has_solar_panels := false;
  estimated_panel_count := 0;
  panel_area_sq_meters := Int 0;
  installation_year := None;
  system_size_kw := Int 0;
  estimated_savings_annual := 0;
  property_value := 500000;
  roof_type := "Metal";
  roof_age_years := 5
|}.

(** A house with panels. *)
Definition solar_house : PropertyRecord := {|
  property_id := "PROP_000007";
  owner_name := "Property Owner 7";
  address := "6789 Monroe St, Mandeville, LA 70448";
  latitude := 30.3556;
  longitude := -90.0598;
  has_solar_panels := true;
  estimated_panel_count := 30;
  panel_area_sq_meters := Float 52.25;
  installation_year := Some 2021;
  system_size_kw := Float 8.5;
  estimated_savings_annual := 1500;
  property_value := 350000;
  roof_type := "Tile";
  roof_age_years := 12
|}.

(** Like [flaky], but the map cannot be saved. *)
Definition map_refused : Env := {|
  http_get := λ k _ _ _, if Nat.even k then Response 200 "PNG" else Response 403 "";
  write_fails := λ _ path,
    if bool_decide (path = "solar_houses_output/interactive_map.html")
    then Some OSError else None;
  isoformat_now := timestamp
|}.

(** Like [flaky], but the CSV of the results cannot be written. *)
Definition csv_refused : Env := {|
  http_get := λ k _ _ _, if Nat.even k then Response 200 "PNG" else Response 403 "";
  write_fails := λ _ path,
    if bool_decide (path = "solar_houses_output/data/solar_houses_results.csv")
    then Some OSError else None;
  isoformat_now := timestamp
|}.

(** A house without panels: metal roof, 22 years old, worth 250000. *)
Definition old_metal_house : PropertyRecord := {|
  property_id := "PROP_000043";
  owner_name := "Property Owner 43";
  address := "4343 Oak St, Metairie";
  latitude := 29.98;
  longitude := -90.16;
  has_solar_panels := false;
  estimated_panel_count := 0;
  panel_area_sq_meters := Int 0;
  installation_year := None;
  system_size_kw := Int 0;
  estimated_savings_annual := 0;
  property_value := 250000;
  roof_type := "Metal";
  roof_age_years := 22
|}.

End Demo.

(** ** The properties, in the words of the specification *)

(** [key] occurs in [location] when case is ignored: a slice of
    [location] lowers to [key]. *)
Definition mentions (key location : string) : Prop :=
  ∃ before slice after,
    location = before +:+ slice +:+ after ∧ PyStr.lower slice = key.

Definition names_st_tammany (location : string) : Prop :=
  mentions "st. tammany" location ∨ mentions "st tammany" location.
Definition names_new_orleans (location : string) : Prop :=
  mentions "new orleans" location ∨ mentions "nola" location.
Definition names_baton_rouge (location : string) : Prop :=
  mentions "baton rouge" location.

(** The scoring rule of the specification, section 4.4. *)
Definition spec_roof_bonus (roof : string) : Z :=
  if decide (roof = "Asphalt Shingle") then 20
  else if decide (roof = "Metal") then 25
  else if decide (roof = "Tile") then 15
  else if decide (roof = "Slate") then 10
  else 0.

Definition spec_age_bonus (age : Z) : Z :=
  if decide (age < 10) then 15 else if decide (age < 20) then 10 else 0.

Definition spec_value_bonus (value : Z) : Z :=
  if decide (value > 400000) then 15 else if decide (value > 300000) then 10 else 0.

Definition spec_base_sum (p : PropertyRecord) : Z :=
  50 + spec_roof_bonus (roof_type p) + spec_age_bonus (roof_age_years p)
     + spec_value_bonus (property_value p).

Definition spec_score (p : PropertyRecord) : Z :=
  if decide (spec_base_sum p > 100) then 100 else spec_base_sum p.

Definition is_Float (x : num) : bool :=
  match x with Float _ => true | Int _ => false end.

(** [x] is the integer [0]. *)
Definition is_Int_0 (x : num) : bool :=
  match x with Int z => bool_decide (z = 0) | Float _ => false end.

(** The solar-installed fields of a record, all zero or absent. *)
Definition solar_fields_zero (p : PropertyRecord) : bool :=
  bool_decide (estimated_panel_count p = 0)
  && is_Int_0 (panel_area_sq_meters p)
  && is_Int_0 (system_size_kw p)
  && bool_decide (estimated_savings_annual p = 0)
  && bool_decide (installation_year p = None).

(** The solar-installed fields of a record, all drawn: the integers within
    their ranges, the year present, the two measures floats. *)
Definition solar_fields_populated (p : PropertyRecord) : bool :=
  bool_decide (15 ≤ estimated_panel_count p ≤ 45)
  && is_Float (panel_area_sq_meters p)
  && is_Float (system_size_kw p)
  && bool_decide (800 ≤ estimated_savings_annual p ≤ 2500)
  && match installation_year p with
     | Some y => bool_decide (2018 ≤ y ≤ 2023)
     | None => false
     end.

(** What the generator promises of the record it makes at index [i]:
    the identifier of the index, the curated entry of that index when
    there is one, and solar fields that follow the solar flag. *)
Definition made_from (location_data : LocationData) (i : nat) (p : PropertyRecord) : Prop :=
  property_id p = "PROP_" +:+ PyStr.format_06d (i + 1) ∧
  (∀ c, addresses location_data !! i = Some c →
        address p = addr_address c ∧ latitude p = addr_lat c ∧
        longitude p = addr_lon c ∧ has_solar_panels p = addr_has_solar c) ∧
  solar_fields_populated p = has_solar_panels p ∧
  solar_fields_zero p = negb (has_solar_panels p).

(** The two image fields of a result row agree. *)
Definition image_fields_agree (row : gmap string pyval) : Prop :=
  ∃ path flag,
    row !! "house_image_path" = Some path ∧
    row !! "image_downloaded" = Some (VBool flag) ∧
    (flag = true ↔ path ≠ VNone).

Definition image_missing (row : gmap string pyval) : Prop :=
  row !! "image_downloaded" = Some (VBool false) ∧
  row !! "house_image_path" = Some VNone.

(** The five keys the summary reads with [row[key]] are present. *)
Definition has_summary_keys (row : gmap string pyval) : Prop :=
  is_Some (row !! "property_id") ∧ is_Some (row !! "owner_name") ∧
  is_Some (row !! "address") ∧ is_Some (row !! "latitude") ∧
  is_Some (row !! "longitude").

(** The events that write a CSV file, the report or the map. *)
Definition is_output (ev : event) : bool :=
  match ev with
  | EvCsvWritten _ _ | EvReportWritten _ | EvMapSaved _ => true
  | _ => false
  end.

Section Draws.

Context {rt : PyRuntime}.

(** The size drawn by the scorer at generator state [g] does not cost zero. *)
Definition cost_nonzero (g : rng) : bool :=
  negb (num_is_zero (num_mul (Float (round1 (uniform 6.0 12.0 g).1)) (Int 3000))).

Definition sizing_nonzero : Prop := ∀ g, cost_nonzero g = true.

(** [m] started in [w] returns, and its value and final world satisfy [Q]. *)
Definition runs {A} (m : M A) (w : world) (Q : A → world → Prop) : Prop :=
  ∃ a w', m w = (Ok a, w') ∧ Q a w'.

(** [Q] holds of the value, and the clock and the events are those of
    [w]: what a computation that only draws leaves behind. *)
Definition quiet (w : world) {A} (Q : A → Prop) : A → world → Prop :=
  λ a w', Q a ∧ w_tick w' = w_tick w ∧ w_events w' = w_events w.

End Draws.

Section FetcherOutcome.

Context {rt : PyRuntime} (env : Env) (output_dir : string).

(** What the fetcher returns, read off the two answers of the outside:
    the reply to the request at the current tick, and the fate of the
    write at the next one. *)
Definition fetched (latitude longitude : float) (zoom_level : Z) (w : world)
    : option string :=
  match http_get env (w_tick w) latitude longitude zoom_level with
  | Response status_code _ =>
      if bool_decide (status_code = 200) then
        match write_fails env (S (w_tick w))
                (image_path output_dir latitude longitude zoom_level) with
        | None => Some (image_path output_dir latitude longitude zoom_level)
        | Some _ => None
        end
      else None
  | Failed _ => None
  end.

End FetcherOutcome.

(** ** The tables of the report and the tiers of the map *)

(** [frame[key] == flag] on one row: the cell is the boolean [flag].  The
    frame is built from result rows, whose [has_solar_panels] cell is a
    boolean; a cell of another kind satisfies neither comparison. *)
Definition cell_is (row : gmap string pyval) (key : string) (flag : bool) : bool :=
  match row !! key with
  | Some (VBool b) => bool_decide (b = flag)
  | _ => false
  end.

(** [frame['solar_potential_score'] > 70] and [<= 70] on one row; the
    score cell of a result row is an integer. *)
Definition score_gt (row : gmap string pyval) (threshold : Z) : bool :=
  match row !! "solar_potential_score" with
  | Some (VNum (Int z)) => bool_decide (z > threshold)
  | _ => false
  end.

Definition score_le (row : gmap string pyval) (threshold : Z) : bool :=
  match row !! "solar_potential_score" with
  | Some (VNum (Int z)) => bool_decide (z ≤ threshold)
  | _ => false
  end.

(** [results_df[results_df['has_solar_panels'] == True]] *)
Definition solar_properties (results : list (gmap string pyval)) : list (gmap string pyval) :=
  List.filter (λ row, cell_is row "has_solar_panels" true) results.

(** [results_df[(results_df['has_solar_panels'] == False) &
                (results_df['solar_potential_score'] > 70)]] *)
Definition high_potential (results : list (gmap string pyval)) : list (gmap string pyval) :=
  List.filter (λ row, cell_is row "has_solar_panels" false && score_gt row 70) results.

(** [results_df[(results_df['has_solar_panels'] == False) &
                (results_df['solar_potential_score'] <= 70)]] *)
Definition other_properties (results : list (gmap string pyval)) : list (gmap string pyval) :=
  List.filter (λ row, cell_is row "has_solar_panels" false && score_le row 70) results.

(** ** Counting what a run did *)

Definition is_request (ev : event) : bool :=
  match ev with EvHttpGet _ _ _ => true | _ => false end.

Definition is_processing_error (ev : event) : bool :=
  match ev with EvLog ERROR (MsgProcessingError _ _) => true | _ => false end.

Definition is_sleep (ev : event) : bool :=
  match ev with EvSleep => true | _ => false end.

Definition count (f : event → bool) (events : list event) : nat :=
  length (List.filter f events).

(** ** What else the generator promises of the record at index [i] *)

Definition drawn_from (location_data : LocationData) (i : nat) (p : PropertyRecord) : Prop :=
  owner_name p = "Property Owner " +:+ PyStr.str_of_nat (i + 1) ∧
  200000 ≤ property_value p ≤ 600000 ∧
  roof_type p ∈ roof_types ∧
  5 ≤ roof_age_years p ≤ 25 ∧
  ((length (addresses location_data) ≤ i)%nat →
     ∃ number street city,
       100 ≤ number ≤ 9999 ∧ street ∈ street_names ∧ city ∈ cities location_data ∧
       address p = pretty number +:+ " " +:+ street +:+ " St, " +:+ city).

(** A curated address lies inside a bounding box. *)
Definition inside (b : Bounds) (a : AddrData) : bool :=
  PrimFloat.leb (south b) (addr_lat a) && PrimFloat.leb (addr_lat a) (north b)
  && PrimFloat.leb (west b) (addr_lon a) && PrimFloat.leb (addr_lon a) (east b).

Section Traces.

Context {rt : PyRuntime}.

(** [m] started in [w] ends, by a return or a raise, after appending the
    events [new]; the outcome, the final world and [new] satisfy [Q]. *)
Definition traced {A} (m : M A) (w : world)
    (Q : outcome A → world → list event → Prop) : Prop :=
  ∃ r w' new, m w = (r, w') ∧ w_events w' = w_events w ++ new ∧ Q r w' new.

End Traces.

(** The identifier cell of a row. *)
Definition id_cell (row : gmap string pyval) : option pyval := row !! "property_id".

(** The identifier cell of the record generated at index [i]. *)
Definition id_of_index (i : nat) : option pyval :=
  Some (VStr ("PROP_" +:+ PyStr.format_06d (i + 1))).

(** A row lands in exactly one of the three tiers of the map. *)
Definition in_one_tier (row : gmap string pyval) : Prop :=
  let solar := cell_is row "has_solar_panels" true in
  let high := cell_is row "has_solar_panels" false && score_gt row 70 in
  let other := cell_is row "has_solar_panels" false && score_le row 70 in
  (solar = true ∧ high = false ∧ other = false) ∨
  (solar = false ∧ high = true ∧ other = false) ∨
  (solar = false ∧ high = false ∧ other = true).

(** The score of a row is within the bounds of a generated property, and a
    row with panels carries the fixed values of the scorer's first branch. *)
Definition scored_in_range (row : gmap string pyval) : Prop :=
  ∃ z, row !! "solar_potential_score" = Some (VInt z) ∧ 60 ≤ z ≤ 100 ∧
       (row !! "has_solar_panels" = Some (VBool true) →
          z = 100 ∧ row !! "payback_period_years" = Some (VInt 0) ∧
          row !! "roi_percentage" = Some (VInt 100)).



(** * Proofs *)

(** ** Strings *)

Lemma app_nil_l' t : "" +:+ t = t.
Proof. reflexivity. Qed.

Lemma app_cons c s t : String c s +:+ t = String c (s +:+ t).
Proof. reflexivity. Qed.

Ltac str_norm := rewrite ?app_nil_l', ?app_cons in *.

Lemma startswith_spec sub s :
  PyStr.startswith sub s = true ↔ ∃ rest, s = sub +:+ rest.
Proof.
  revert s. induction sub as [|a sub IH]; intros s; simpl.
  - split; [intros _; by exists s | done].
  - destruct s as [|b s].
    + split; [done | intros [rest Hrest]; discriminate].
    + destruct (decide (a = b)) as [->|Hne].
      * rewrite IH. split; intros [rest Hrest]; exists rest;
          str_norm; congruence.
      * split; [done | intros [rest Hrest]; str_norm; congruence].
Qed.

Lemma contains_spec sub s :
  PyStr.contains sub s = true ↔ ∃ before after, s = before +:+ sub +:+ after.
Proof.
  induction s as [|c s IH]; simpl.
  - rewrite orb_false_r, startswith_spec. split.
    + intros [rest Hrest]. by exists "", rest.
    + intros ([|? before] & after & Heq); str_norm;
        [by exists after | discriminate].
  - rewrite orb_true_iff, startswith_spec, IH. split.
    + intros [[rest Hrest] | (before & after & Heq)].
      * by exists "", rest.
      * exists (String c before), after. str_norm. by rewrite Heq.
    + intros ([|b before] & after & Heq); str_norm.
      * left. by exists after.
      * right. exists before, after. congruence.
Qed.

Lemma lower_app s t : PyStr.lower (s +:+ t) = PyStr.lower s +:+ PyStr.lower t.
Proof.
  induction s as [|c s IH]; str_norm; simpl; [done|].
  by rewrite IH.
Qed.

Lemma lower_split s x y :
  PyStr.lower s = x +:+ y →
  ∃ s1 s2, s = s1 +:+ s2 ∧ PyStr.lower s1 = x ∧ PyStr.lower s2 = y.
Proof.
  revert s. induction x as [|c x IH]; intros s Hs; str_norm.
  - by exists "", s.
  - destruct s as [|d s]; simpl in Hs; [discriminate|].
    injection Hs as Hc Hs. destruct (IH s Hs) as (s1 & s2 & -> & H1 & H2).
    exists (String d s1), s2. simpl. by rewrite Hc, H1.
Qed.

(** The test of the resolver, [key in location.lower()], is the match of
    [key] in [location] with case ignored. *)
Lemma contains_lower_mentions key location :
  PyStr.contains key (PyStr.lower location) = true ↔ mentions key location.
Proof.
  rewrite contains_spec. unfold mentions. split.
  - intros (x & y & Hxy).
    apply lower_split in Hxy as (s1 & s23 & -> & <- & H23).
    apply lower_split in H23 as (s2 & s3 & -> & <- & <-).
    by exists s1, s2, s3.
  - intros (before & slice & after & -> & <-).
    exists (PyStr.lower before), (PyStr.lower after).
    by rewrite !lower_app.
Qed.

Lemma split_nonempty sep s : ∃ head rest, PyStr.split sep s = head :: rest.
Proof.
  induction s as [|c s (head & rest & IH)]; simpl; [by eauto|].
  destruct (decide (c = sep)); [by eauto|]. rewrite IH. by eauto.
Qed.

(** ** The resolver *)

Lemma resolver_cases location :
  ∃ d, _get_location_data location = Ok d ∧ cities d ≠ [] ∧
    (if PyStr.contains "st. tammany" (PyStr.lower location)
        || PyStr.contains "st tammany" (PyStr.lower location)
     then d = st_tammany_data
     else if PyStr.contains "new orleans" (PyStr.lower location)
             || PyStr.contains "nola" (PyStr.lower location)
     then d = new_orleans_data
     else if PyStr.contains "baton rouge" (PyStr.lower location)
     then d = baton_rouge_data
     else bounds d = default_bounds ∧ addresses d = default_addresses location).
Proof.
  unfold _get_location_data.
  destruct (_ || _); [by eexists|].
  destruct (_ || _); [by eexists|].
  destruct (PyStr.contains "baton rouge" _); [by eexists|].
  destruct (split_nonempty "," location) as (head & rest & ->). simpl.
  by eexists.
Qed.

(** C9. The location resolver returns on every string; a region is chosen
    by a match of one of its keys in the input with case ignored, the
    regions being tried in the order St. Tammany, New Orleans, Baton Rouge;
    an input that names none of them gets the fallback bounding box and
    three placeholder addresses that end with the input as it was typed. *)
Theorem resolver_total_first_match (location : string) :
  ∃ d, _get_location_data location = Ok d ∧
    (names_st_tammany location → d = st_tammany_data) ∧
    (¬ names_st_tammany location → names_new_orleans location →
       d = new_orleans_data) ∧
    (¬ names_st_tammany location → ¬ names_new_orleans location →
       names_baton_rouge location → d = baton_rouge_data) ∧
    (¬ names_st_tammany location → ¬ names_new_orleans location →
       ¬ names_baton_rouge location →
       bounds d = default_bounds ∧
       addr_address <$> addresses d =
         [ "1234 Main St, " +:+ location;
           "5678 Oak Ave, " +:+ location;
           "9012 Pine St, " +:+ location ]).
Proof.
  destruct (resolver_cases location) as (d & Hd & _ & Hcase).
  exists d. split; [done|].
  unfold names_st_tammany, names_new_orleans, names_baton_rouge.
  rewrite <- !contains_lower_mentions.
  destruct (PyStr.contains "st. tammany" _), (PyStr.contains "st tammany" _),
    (PyStr.contains "new orleans" _), (PyStr.contains "nola" _),
    (PyStr.contains "baton rouge" _);
    simpl in Hcase;
    try match type of Hcase with _ ∧ _ => destruct Hcase as [Hbounds ->] end;
    intuition (try discriminate; try congruence).
Qed.

(** ** The monad *)

Section Runs.

Context {rt : PyRuntime}.

Lemma runs_ret {A} (a : A) w (Q : A → world → Prop) : Q a w → runs (ret a) w Q.
Proof. intros HQ. by exists a, w. Qed.

Lemma runs_lift {A} (a : A) w (Q : A → world → Prop) : Q a w → runs (lift (Ok a)) w Q.
Proof. intros HQ. by exists a, w. Qed.

Lemma runs_bind {A B} (m : M A) (k : A → M B) w (Q : B → world → Prop) :
  runs m w (λ a w', runs (k a) w' Q) → runs (bind m k) w Q.
Proof.
  intros (a & w' & Hm & b & w'' & Hk & HQ).
  exists b, w''. unfold bind. by rewrite Hm.
Qed.

Lemma runs_mono {A} (m : M A) w (Q Q' : A → world → Prop) :
  runs m w Q → (∀ a w', Q a w' → Q' a w') → runs m w Q'.
Proof. intros (a & w' & Hm & HQ) Himp. exists a, w'. eauto. Qed.

Lemma runs_inv {A} (m : M A) w (Q : A → world → Prop) a w' :
  runs m w Q → m w = (Ok a, w') → Q a w'.
Proof. intros (a0 & w0 & Hm & HQ) Heq. congruence. Qed.

Lemma runs_draw {A} (f : rng → A * rng) w (Q : A → world → Prop) :
  (∀ w', w_tick w' = w_tick w → w_events w' = w_events w → Q (f (w_rng w)).1 w') →
  runs (draw f) w Q.
Proof.
  intros HQ. unfold runs, draw. destruct (f (w_rng w)) as [a g] eqn:Hf.
  eexists _, _. split; [done|]. by apply HQ.
Qed.

Lemma quiet_bind {A B} (m : M A) (k : A → M B) w (P : A → Prop) (Q : B → Prop) :
  runs m w (quiet w P) →
  (∀ a w', P a → w_tick w' = w_tick w → w_events w' = w_events w →
           runs (k a) w' (quiet w' Q)) →
  runs (bind m k) w (quiet w Q).
Proof.
  intros Hm Hk. apply runs_bind. eapply runs_mono; [exact Hm|].
  intros a w' (HP & Ht & He). eapply runs_mono; [by apply Hk|].
  intros b w'' (HQ & Ht' & He'). unfold quiet. by rewrite Ht', He'.
Qed.

Lemma quiet_ret {A} (a : A) w (Q : A → Prop) : Q a → runs (ret a) w (quiet w Q).
Proof. intros HQ. by apply runs_ret. Qed.

Lemma quiet_randint a b w :
  a ≤ b → runs (random_randint a b) w (quiet w (λ z, a ≤ z ≤ b)).
Proof.
  intros Hab. apply runs_draw. intros w' Ht He.
  split; [by apply randint_range | done].
Qed.

Lemma quiet_uniform a b w : runs (random_uniform a b) w (quiet w (λ _, True)).
Proof. apply runs_draw. by intros w' Ht He. Qed.

Lemma quiet_random w : runs random_random w (quiet w (λ _, True)).
Proof. apply runs_draw. by intros w' Ht He. Qed.

Lemma quiet_choice {A} (xs : list A) w :
  xs ≠ [] → runs (random_choice xs) w (quiet w (λ x, x ∈ xs)).
Proof.
  intros Hne. unfold random_choice. destruct xs as [|x0 xs]; [done|].
  apply (quiet_bind _ _ _ (λ k, (k < length (x0 :: xs))%nat)).
  - apply runs_draw. intros w' Ht He. split; [|done].
    apply randbelow_lt. simpl. lia.
  - intros k w' Hk Ht He. unfold index.
    destruct (lookup_lt_is_Some_2 (x0 :: xs) k Hk) as [x Hx]. rewrite Hx.
    apply runs_lift. split; [|done]. by eapply list_elem_of_lookup_2.
Qed.

Lemma quiet_mono {A} (m : M A) w (Q Q' : A → Prop) :
  runs m w (quiet w Q) → (∀ a, Q a → Q' a) → runs m w (quiet w Q').
Proof.
  intros Hm Himp. eapply runs_mono; [exact Hm|].
  intros a w' (HQ & Ht & He). split; auto.
Qed.

End Runs.

(** ** The scorer *)

Lemma roof_bonus_lookup roof :
  default 0 (roof_bonus !! roof) = spec_roof_bonus roof.
Proof.
  unfold roof_bonus, spec_roof_bonus.
  destruct (decide (roof = "Asphalt Shingle")) as [->|H1]; [done|].
  rewrite lookup_insert_ne by done.
  destruct (decide (roof = "Metal")) as [->|H2]; [done|].
  rewrite lookup_insert_ne by done.
  destruct (decide (roof = "Tile")) as [->|H3]; [done|].
  rewrite lookup_insert_ne by done.
  destruct (decide (roof = "Slate")) as [->|H4]; [done|].
  by rewrite lookup_singleton_ne.
Qed.

Lemma base_score_spec p : base_score p = spec_base_sum p.
Proof.
  unfold base_score, spec_base_sum, spec_age_bonus, spec_value_bonus.
  rewrite roof_bonus_lookup.
  repeat case_bool_decide; repeat case_decide; lia.
Qed.

Lemma clamp_spec p : Z.min 100 (base_score p) = spec_score p.
Proof.
  unfold spec_score. rewrite base_score_spec. case_decide; lia.
Qed.

Section ScorerProofs.

Context {rt : PyRuntime}.

(** Without panels the scorer returns as soon as the size it draws does
    not cost zero, and the score it returns is the clamp of [base_score]. *)
Lemma analyze_non_solar p w :
  has_solar_panels p = false → cost_nonzero (w_rng w) = true →
  runs (analyze_solar_potential p) w
    (λ a w', solar_potential_score a = Z.min 100 (base_score p) ∧
             w_tick w' = w_tick w ∧ w_events w' = w_events w).
Proof.
  intros Hsolar Hcost. unfold analyze_solar_potential. rewrite Hsolar.
  unfold cost_nonzero in Hcost. apply negb_true_iff in Hcost.
  unfold runs, bind, random_uniform, random_randint, draw, lift, ret.
  destruct (uniform 6 12 (w_rng w)) as [x g1] eqn:Hx. cbn [w_rng fst] in *.
  pose proof (randint_range 600 1800 g1 ltac:(lia)) as Hs.
  destruct (randint 600 1800 g1) as [s g2] eqn:Hs'. cbn [fst] in Hs.
  unfold num_truediv. rewrite Hcost. cbn [num_is_zero].
  rewrite bool_decide_eq_false_2 by lia.
  eexists _, _. split; [reflexivity|]. by cbn.
Qed.

End ScorerProofs.

(** C1. Without panels the score is 50, plus the roof bonus (Asphalt
    Shingle 20, Metal 25, Tile 15, Slate 10, any other roof 0), plus the
    age bonus (15 under 10 years, 10 under 20), plus the value bonus (15
    over 400000, 10 over 300000), clamped to at most 100; a metal roof of
    5 years on a house worth 500000 sums to 105 and scores 100.  The
    scorer returns whenever the size it draws does not cost zero. *)
Theorem scorer_non_solar {rt : PyRuntime} (p : PropertyRecord) (w : world) :
  has_solar_panels p = false → cost_nonzero (w_rng w) = true →
  ∃ a w', analyze_solar_potential p w = (Ok a, w') ∧
    solar_potential_score a = spec_score p ∧
    (roof_type p = "Metal" → roof_age_years p = 5 → property_value p = 500000 →
       base_score p = 105 ∧ spec_base_sum p = 105 ∧ solar_potential_score a = 100).
Proof.
  intros Hsolar Hcost.
  destruct (analyze_non_solar p w Hsolar Hcost) as (a & w' & Hrun & Hscore & _).
  exists a, w'. split; [done|]. rewrite Hscore. split; [apply clamp_spec|].
  intros Hroof Hage Hvalue.
  assert (base_score p = 105) as Hbase.
  { unfold base_score. by rewrite Hroof, Hage, Hvalue. }
  rewrite <- base_score_spec, Hbase. done.
Qed.

Lemma scorer_non_solar_witness :
  ∃ a w', analyze_solar_potential (rt := Demo.runtime) Demo.metal_house (Demo.world0 1)
            = (Ok a, w') ∧
    base_score Demo.metal_house = 105 ∧ solar_potential_score a = 100.
Proof.
  destruct (scorer_non_solar (rt := Demo.runtime) Demo.metal_house (Demo.world0 1)
              eq_refl eq_refl) as (a & w' & Hrun & _ & Hmetal).
  destruct (Hmetal eq_refl eq_refl eq_refl) as (Hbase & _ & Hscore).
  by exists a, w'.
Defined.

(** C2. With panels the scorer returns score 100, payback 0 and ROI 100,
    recommends the installed size, prices the installation at the
    installed size times 3000 and reports the stored annual savings. *)
Theorem scorer_solar {rt : PyRuntime} (p : PropertyRecord) (w : world) :
  has_solar_panels p = true →
  ∃ a, analyze_solar_potential p w = (Ok a, w) ∧
    solar_potential_score a = 100 ∧
    payback_period_years a = Int 0 ∧
    roi_percentage a = Int 100 ∧
    recommended_system_size_kw a = system_size_kw p ∧
    estimated_installation_cost a = num_mul (system_size_kw p) (Int 3000) ∧
    estimated_annual_savings a = estimated_savings_annual p.
Proof.
  intros Hsolar. unfold analyze_solar_potential. rewrite Hsolar.
  eexists. split; [reflexivity|]. by cbn.
Qed.

Lemma scorer_solar_witness :
  ∃ a, analyze_solar_potential (rt := Demo.runtime) Demo.solar_house (Demo.world0 1)
         = (Ok a, Demo.world0 1) ∧
    solar_potential_score a = 100 ∧
    payback_period_years a = Int 0 ∧
    roi_percentage a = Int 100 ∧
    recommended_system_size_kw a = Float 8.5 ∧
    estimated_installation_cost a = Float 25500 ∧
    estimated_annual_savings a = 1500.
Proof.
  exact (scorer_solar (rt := Demo.runtime) Demo.solar_house (Demo.world0 1) eq_refl).
Defined.

(** ** The generator *)

Section GeneratorProofs.

Context {rt : PyRuntime}.

Lemma quiet_if_else {A} (c : bool) (m : M A) (d : A) w (P : A → Prop) :
  runs m w (quiet w P) →
  runs (if_else c m d) w (quiet w (λ x, if c then P x else x = d)).
Proof. intros Hm. destruct c; [exact Hm | by apply quiet_ret]. Qed.

Lemma quiet_float a b (f : float → float) w :
  runs (let* x := random_uniform a b in ret (Float (f x))) w
       (quiet w (λ v, is_Float v = true)).
Proof.
  apply (quiet_bind _ _ _ (λ _, True)); [apply quiet_uniform|].
  intros x w' _ _ _. by apply quiet_ret.
Qed.

Lemma quiet_year a b w :
  a ≤ b →
  runs (let* y := random_randint a b in ret (Some y)) w
       (quiet w (λ o, ∃ y, o = Some y ∧ a ≤ y ≤ b)).
Proof.
  intros Hab. apply (quiet_bind _ _ _ (λ y, a ≤ y ≤ b)); [by apply quiet_randint|].
  intros y w' Hy _ _. apply quiet_ret. eauto.
Qed.

(** The eight draws that both branches of the loop body share, then the
    record: [k] receives the drawn fields in the order of the source. *)
Ltac solar_draws hs :=
  apply (quiet_bind _ _ _ (λ z, if hs then 15 ≤ z ≤ 45 else z = 0));
    [apply quiet_if_else, quiet_randint; lia | intros panel_count ? Hcount _ _];
  apply (quiet_bind _ _ _ (λ v, if hs then is_Float v = true else v = Int 0));
    [apply quiet_if_else, (quiet_float _ _ id) | intros panel_area ? Harea _ _];
  apply (quiet_bind _ _ _ (λ o, if hs then ∃ y, o = Some y ∧ 2018 ≤ y ≤ 2023 else o = None));
    [apply quiet_if_else, quiet_year; lia | intros year ? Hyear _ _];
  apply (quiet_bind _ _ _ (λ v, if hs then is_Float v = true else v = Int 0));
    [apply quiet_if_else, (quiet_float _ _ round1) | intros size ? Hsize _ _];
  apply (quiet_bind _ _ _ (λ z, if hs then 800 ≤ z ≤ 2500 else z = 0));
    [apply quiet_if_else, quiet_randint; lia | intros savings ? Hsavings _ _];
  apply (quiet_bind _ _ _ (λ z, 200000 ≤ z ≤ 600000));
    [apply quiet_randint; lia | intros value ? _ _ _];
  apply (quiet_bind _ _ _ (λ r, r ∈ roof_types));
    [by apply quiet_choice | intros roof ? _ _ _];
  apply (quiet_bind _ _ _ (λ z, 5 ≤ z ≤ 25));
    [apply quiet_randint; lia | intros age ? _ _ _];
  apply quiet_ret.

Lemma solar_fields_follow p :
  (if has_solar_panels p then 15 ≤ estimated_panel_count p ≤ 45
   else estimated_panel_count p = 0) →
  (if has_solar_panels p then is_Float (panel_area_sq_meters p) = true
   else panel_area_sq_meters p = Int 0) →
  (if has_solar_panels p then ∃ y, installation_year p = Some y ∧ 2018 ≤ y ≤ 2023
   else installation_year p = None) →
  (if has_solar_panels p then is_Float (system_size_kw p) = true
   else system_size_kw p = Int 0) →
  (if has_solar_panels p then 800 ≤ estimated_savings_annual p ≤ 2500
   else estimated_savings_annual p = 0) →
  solar_fields_populated p = has_solar_panels p ∧
  solar_fields_zero p = negb (has_solar_panels p).
Proof.
  unfold solar_fields_populated, solar_fields_zero.
  destruct (has_solar_panels p); intros Hcount Harea Hyear Hsize Hsavings.
  - destruct Hyear as (y & -> & Hy). rewrite Harea, Hsize.
    rewrite !bool_decide_eq_true_2 by done.
    rewrite (bool_decide_eq_false_2 (estimated_panel_count p = 0)) by lia.
    done.
  - rewrite Hcount, Harea, Hyear, Hsize, Hsavings. done.
Qed.

Lemma make_property_runs location_data i w :
  cities location_data ≠ [] →
  runs (make_property location_data i) w (quiet w (made_from location_data i)).
Proof.
  intros Hcities. unfold make_property. case_bool_decide as Hi.
  - destruct (lookup_lt_is_Some_2 _ _ Hi) as [c Hc].
    unfold index. rewrite Hc.
    apply (quiet_bind _ _ _ (λ x, x = c)); [by apply runs_lift|].
    intros ? w0 -> _ _.
    solar_draws (addr_has_solar c).
    split; [done|]. split.
    + intros c' Hc'. rewrite Hc in Hc'. by injection Hc' as <-.
    + by apply solar_fields_follow.
  - apply (quiet_bind _ _ _ (λ _, True)); [apply quiet_uniform | intros lat ? _ _ _].
    apply (quiet_bind _ _ _ (λ _, True)); [apply quiet_uniform | intros lon ? _ _ _].
    apply (quiet_bind _ _ _ (λ _, True)); [apply quiet_random | intros r ? _ _ _].
    apply (quiet_bind _ _ _ (λ z, 100 ≤ z ≤ 9999));
      [apply quiet_randint; lia | intros number ? _ _ _].
    apply (quiet_bind _ _ _ (λ x, x ∈ street_names));
      [by apply quiet_choice | intros street ? _ _ _].
    apply (quiet_bind _ _ _ (λ x, x ∈ cities location_data));
      [by apply quiet_choice | intros city ? _ _ _].
    solar_draws (PrimFloat.ltb r 0.3).
    split; [done|]. split.
    + intros c' Hc'. apply lookup_lt_Some in Hc'. lia.
    + by apply solar_fields_follow.
Qed.

Lemma generate_loop_runs location_data indices properties w :
  cities location_data ≠ [] →
  runs (generate_loop location_data indices properties) w
    (quiet w (λ out, ∃ made, out = properties ++ made ∧
                             Forall2 (made_from location_data) indices made)).
Proof.
  intros Hcities. revert properties w.
  induction indices as [|i rest IH]; intros properties w; simpl.
  - apply quiet_ret. exists []. by rewrite app_nil_r.
  - apply (quiet_bind _ _ _ (made_from location_data i));
      [by apply make_property_runs|].
    intros p w' Hp _ _. eapply quiet_mono; [apply IH|].
    intros out (made & -> & Hmade). exists (p :: made).
    rewrite <- app_assoc. split; [done|]. by constructor.
Qed.

(** The generator returns on every count and location, touches only the
    random generator, and each record it returns is [made_from] its index. *)
Lemma generate_runs count location w :
  runs (generate_realistic_properties count location) w
    (quiet w (λ out, ∃ location_data,
                _get_location_data location = Ok location_data ∧
                Forall2 (made_from location_data) (seq 0 (Z.to_nat count)) out)).
Proof.
  unfold generate_realistic_properties.
  destruct (resolver_cases location) as (d & Hd & Hcities & _). rewrite Hd.
  apply (quiet_bind _ _ _ (λ x, x = d)); [by apply runs_lift|].
  intros ? w' -> _ _. eapply quiet_mono; [by apply generate_loop_runs|].
  intros out (made & -> & Hmade). by exists d.
Qed.

End GeneratorProofs.

(** ** Identifiers *)

(** The decimal digits of a positive number do not start with a zero. *)
Lemma pretty_N_go_head (x : N) (s : string) :
  (0 < x)%N → ∃ c rest, pretty_N_go x s = String c rest ∧ c ≠ "0"%char.
Proof.
  revert s. induction (N.lt_wf_0 x) as [x _ IH]. intros s Hx.
  rewrite pretty_N_go_step by done.
  destruct (decide (x `div` 10 = 0)%N) as [Hsmall|Hbig].
  - rewrite Hsmall, pretty_N_go_0. eexists _, _. split; [done|].
    apply N.div_small_iff in Hsmall; [|done].
    rewrite N.mod_small by done.
    assert (x = 1 ∨ x = 2 ∨ x = 3 ∨ x = 4 ∨ x = 5 ∨ x = 6 ∨ x = 7 ∨ x = 8 ∨ x = 9)%N
      as Hcases by lia.
    by destruct Hcases as [->|[->|[->|[->|[->|[->|[->|[->| ->]]]]]]]].
  - apply IH; [apply N.div_lt; lia | by apply N.neq_0_lt_0].
Qed.

Lemma str_of_nat_head (n : nat) :
  (0 < n)%nat → ∃ c rest, PyStr.str_of_nat n = String c rest ∧ c ≠ "0"%char.
Proof.
  intros Hn. unfold PyStr.str_of_nat, pretty, pretty_nat, pretty, pretty_N.
  rewrite decide_False by lia. apply pretty_N_go_head. lia.
Qed.

Lemma zeros_app_inj k1 k2 s1 s2 :
  (∃ c rest, s1 = String c rest ∧ c ≠ "0"%char) →
  (∃ c rest, s2 = String c rest ∧ c ≠ "0"%char) →
  PyStr.zeros k1 +:+ s1 = PyStr.zeros k2 +:+ s2 → s1 = s2.
Proof.
  intros (c1 & r1 & -> & Hc1) (c2 & r2 & -> & Hc2). revert k2.
  induction k1 as [|k1 IH]; intros [|k2] Heq; simpl in Heq; str_norm.
  - done.
  - congruence.
  - congruence.
  - injection Heq as Heq. by apply (IH k2).
Qed.

(** Two positive numbers with the same six-digit text are equal. *)
Lemma format_06d_inj (n m : nat) :
  (0 < n)%nat → (0 < m)%nat → PyStr.format_06d n = PyStr.format_06d m → n = m.
Proof.
  intros Hn Hm Heq. unfold PyStr.format_06d in Heq.
  apply zeros_app_inj in Heq; [|by apply str_of_nat_head..].
  by apply (inj pretty) in Heq.
Qed.

Lemma property_id_inj (i j : nat) :
  "PROP_" +:+ PyStr.format_06d (i + 1) = "PROP_" +:+ PyStr.format_06d (j + 1) → i = j.
Proof.
  intros Heq. str_norm. injection Heq as Heq.
  apply format_06d_inj in Heq; lia.
Qed.

Lemma Forall2_seq_lookup {A} (P : nat → A → Prop) (n : nat) (xs : list A) :
  Forall2 P (seq 0 n) xs →
  length xs = n ∧ ∀ i x, xs !! i = Some x → P i x.
Proof.
  intros HF. split.
  - apply Forall2_length in HF. by rewrite length_seq in HF.
  - intros i x Hx.
    destruct (Forall2_lookup_r _ _ _ _ _ HF Hx) as (j & Hj & HP).
    apply lookup_seq in Hj as [-> _]. done.
Qed.

(** ** The generator: the claims *)

(** C3. For every count of at least zero and every location the generator
    returns exactly [count] records; the record at index [i] carries the
    identifier [PROP_] followed by [i + 1] on six digits, and no two
    records of the run carry the same identifier. *)
Theorem generator_count_and_ids {rt : PyRuntime}
    (count : Z) (location : string) (w : world) :
  0 ≤ count →
  ∃ properties w',
    generate_realistic_properties count location w = (Ok properties, w') ∧
    Z.of_nat (length properties) = count ∧
    (∀ i p, properties !! i = Some p →
            property_id p = "PROP_" +:+ PyStr.format_06d (i + 1)) ∧
    NoDup (property_id <$> properties).
Proof.
  intros Hcount.
  destruct (generate_runs count location w)
    as (properties & w' & Hrun & (d & _ & Hmade) & _).
  apply Forall2_seq_lookup in Hmade as [Hlen Hmade].
  exists properties, w'. split; [done|]. split; [lia|].
  assert (∀ i p, properties !! i = Some p →
                 property_id p = "PROP_" +:+ PyStr.format_06d (i + 1)) as Hid.
  { intros i p Hp. by destruct (Hmade i p Hp) as [Hid _]. }
  split; [done|].
  apply NoDup_alt. intros i j pid Hi Hj.
  rewrite list_lookup_fmap in Hi, Hj.
  destruct (properties !! i) as [p|] eqn:Hp; [|done].
  destruct (properties !! j) as [q|] eqn:Hq; [|done].
  simpl in Hi, Hj. apply property_id_inj.
  rewrite <- (Hid i p Hp), <- (Hid j q Hq). congruence.
Qed.

Lemma generator_count_and_ids_witness :
  ∃ properties w',
    generate_realistic_properties (rt := Demo.runtime) 12 "New Orleans, LA" (Demo.world0 42)
      = (Ok properties, w') ∧
    Z.of_nat (length properties) = 12 ∧
    (∀ i p, properties !! i = Some p →
            property_id p = "PROP_" +:+ PyStr.format_06d (i + 1)) ∧
    NoDup (property_id <$> properties).
Proof.
  apply (generator_count_and_ids (rt := Demo.runtime) 12 "New Orleans, LA" (Demo.world0 42)).
  lia.
Defined.

(** C4. The record generated at an index below the number of curated
    addresses of the resolved location has the address, the latitude, the
    longitude and the solar flag of the curated entry at that index. *)
Theorem generator_curated_prefix {rt : PyRuntime}
    (count : Z) (location : string) (w : world) :
  ∃ properties w' location_data,
    generate_realistic_properties count location w = (Ok properties, w') ∧
    _get_location_data location = Ok location_data ∧
    ∀ i c, addresses location_data !! i = Some c → Z.of_nat i < count →
      ∃ p, properties !! i = Some p ∧
           address p = addr_address c ∧
           latitude p = addr_lat c ∧
           longitude p = addr_lon c ∧
           has_solar_panels p = addr_has_solar c.
Proof.
  destruct (generate_runs count location w)
    as (properties & w' & Hrun & (d & Hd & Hmade) & _).
  apply Forall2_seq_lookup in Hmade as [Hlen Hmade].
  exists properties, w', d. split; [done|]. split; [done|].
  intros i c Hc Hi.
  destruct (lookup_lt_is_Some_2 properties i ltac:(lia)) as [p Hp].
  exists p. split; [done|].
  destruct (Hmade i p Hp) as (_ & Hcurated & _). by apply Hcurated.
Qed.

(** C5. In every generated record the solar-installed fields follow the
    solar flag: without panels the panel count, the panel area, the system
    size and the annual savings are 0 and the installation year is absent;
    with panels they are all drawn. *)
Theorem generator_solar_fields {rt : PyRuntime}
    (count : Z) (location : string) (w : world) :
  ∃ properties w',
    generate_realistic_properties count location w = (Ok properties, w') ∧
    Forall (λ p,
      (has_solar_panels p = false →
         estimated_panel_count p = 0 ∧ panel_area_sq_meters p = Int 0 ∧
         system_size_kw p = Int 0 ∧ estimated_savings_annual p = 0 ∧
         installation_year p = None) ∧
      solar_fields_populated p = has_solar_panels p ∧
      solar_fields_zero p = negb (has_solar_panels p)) properties.
Proof.
  destruct (generate_runs count location w)
    as (properties & w' & Hrun & (d & Hd & Hmade) & _).
  exists properties, w'. split; [done|].
  apply Forall_forall. intros p Hp.
  apply list_elem_of_lookup in Hp as [i Hp].
  apply Forall2_seq_lookup in Hmade as [_ Hmade].
  destruct (Hmade i p Hp) as (_ & _ & Hpop & Hzero).
  split; [|done]. intros Hsolar. rewrite Hsolar in Hzero. simpl in Hzero.
  unfold solar_fields_zero in Hzero.
  repeat (apply andb_true_iff in Hzero as [Hzero ?]).
  destruct (panel_area_sq_meters p) as [za|]; [|done].
  destruct (system_size_kw p) as [zs|]; [|done].
  simpl in *. repeat case_bool_decide; try done. by subst.
Qed.

(** ** The image fetcher *)

Section FetcherProofs.

Context {rt : PyRuntime} (env : Env) (api_key output_dir : string).

Lemma download_house_image_runs latitude longitude zoom_level w :
  runs (download_house_image env api_key output_dir latitude longitude zoom_level) w
    (λ r w', r = fetched env output_dir latitude longitude zoom_level w ∧
             w_rng w' = w_rng w).
Proof.
  unfold runs, download_house_image, fetched, try_except, requests_get, write_image,
    bind, tick, log, emit, ret, raise.
  cbn [w_tick w_rng w_events].
  destruct (http_get env (w_tick w) latitude longitude zoom_level)
    as [status_code content|e]; cbn [fst snd w_tick w_rng w_events].
  - case_bool_decide; cbn [w_tick w_rng w_events].
    + destruct (write_fails env (S (w_tick w)) _); cbn [w_tick w_rng w_events];
        by eexists _, _.
    + by eexists _, _.
  - by eexists _, _.
Qed.

End FetcherProofs.

(** C6, as the code has it. The image fetcher never raises to its caller.
    On an HTTP 200 response whose bytes are written to the disk it returns
    the path [house_images/house_{lat}_{lon}_zoom{z}.png] under the output
    directory; on any other status, on an exception of the transport, and
    on a write that fails, it returns [None]. *)
Theorem fetcher_never_raises {rt : PyRuntime} (env : Env) (api_key output_dir : string)
    (latitude longitude : float) (zoom_level : Z) (w : world) :
  let path := output_dir +:+ "/house_images/house_" +:+ float_str latitude +:+ "_"
              +:+ float_str longitude +:+ "_zoom" +:+ pretty zoom_level +:+ ".png" in
  let reply := http_get env (w_tick w) latitude longitude zoom_level in
  let written := write_fails env (S (w_tick w)) path in
  ∃ r w',
    download_house_image env api_key output_dir latitude longitude zoom_level w = (Ok r, w') ∧
    (∀ content, reply = Response 200 content → written = None → r = Some path) ∧
    (∀ content e, reply = Response 200 content → written = Some e → r = None) ∧
    (∀ status_code content,
        reply = Response status_code content → status_code ≠ 200 → r = None) ∧
    (∀ e, reply = Failed e → r = None).
Proof.
  intros path reply written.
  destruct (download_house_image_runs env api_key output_dir latitude longitude zoom_level w)
    as (r & w' & Hrun & -> & _).
  exists (fetched env output_dir latitude longitude zoom_level w), w'.
  split; [done|]. unfold fetched.
  change (image_path output_dir latitude longitude zoom_level) with path.
  fold reply written.
  repeat split.
  - intros content -> ->. done.
  - intros content e -> ->. done.
  - intros status_code content -> Hne. by rewrite bool_decide_eq_false_2.
  - intros e ->. done.
Qed.

(** C6, as it was stated, fails: the endpoint answers 200 and the write
    of the image fails; the fetcher returns [None], not the path. *)
Lemma fetcher_200_without_path :
  http_get Demo.disk_full 0 30.4755 (-90.1009) 19 = Response 200 "PNG" ∧
  (download_house_image (rt := Demo.runtime) Demo.disk_full "KEY" "solar_houses_output"
     30.4755 (-90.1009) 19 (Demo.world0 1)).1 = Ok None.
Proof. split; reflexivity. Qed.

(** ** The orchestrator *)

Lemma analysis_row_no_image_keys a :
  analysis_row a !! "house_image_path" = None ∧
  analysis_row a !! "image_downloaded" = None.
Proof. split; reflexivity. Qed.

(** The two image fields of a result row are the ones the display sets:
    neither the splice of the analysis nor the time stamp replaces them. *)
Lemma result_row_image_fields p path a t :
  result_row p path a t !! "house_image_path" = Some (from_option VStr VNone path) ∧
  result_row p path a t !! "image_downloaded" = Some (VBool (is_not_None path)).
Proof.
  destruct (analysis_row_no_image_keys a) as [Hpath Hflag].
  unfold result_row, splice. split.
  - rewrite lookup_insert_ne by done. rewrite lookup_union_r by done.
    rewrite lookup_insert_ne by done. by rewrite lookup_insert_eq.
  - rewrite lookup_insert_ne by done. rewrite lookup_union_r by done.
    by rewrite lookup_insert_eq.
Qed.

Lemma result_row_agrees p path a t : image_fields_agree (result_row p path a t).
Proof.
  destruct (result_row_image_fields p path a t) as [Hpath Hflag].
  exists (from_option VStr VNone path), (is_not_None path).
  split; [exact Hpath|]. split; [exact Hflag|].
  destruct path as [file|]; simpl; split.
  - intros _. discriminate.
  - reflexivity.
  - discriminate.
  - intros Hne. by destruct Hne.
Qed.

Lemma result_row_missing p a t : image_missing (result_row p None a t).
Proof.
  destruct (result_row_image_fields p None a t) as [Hpath Hflag]. by split.
Qed.

Lemma result_row_summary_keys p path a t :
  let row := result_row p path a t in
  is_Some (row !! "property_id") ∧ is_Some (row !! "owner_name") ∧
  is_Some (row !! "address") ∧ is_Some (row !! "latitude") ∧
  is_Some (row !! "longitude").
Proof. repeat split; eexists; vm_compute; reflexivity. Qed.

Section OrchestratorProofs.

Context {rt : PyRuntime} (env : Env) (api_key output_dir : string).

Lemma bind_Ok_inv {A B} (m : M A) (k : A → M B) w b w' :
  bind m k w = (Ok b, w') → ∃ a w1, m w = (Ok a, w1) ∧ k a w1 = (Ok b, w').
Proof.
  unfold bind. destruct (m w) as [[a|e] w1]; [by eauto | discriminate].
Qed.

Lemma runs_try_except {A} (body : M A) (handler : exn → M A) w
    (Q : A → world → Prop) :
  (∀ a w', body w = (Ok a, w') → Q a w') →
  (∀ e w', body w = (Raise e, w') → runs (handler e) w' Q) →
  runs (try_except body handler) w Q.
Proof.
  intros Hok Hraise. unfold runs, try_except.
  destruct (body w) as [[a|e] w'] eqn:Hbody.
  - exists a, w'. split; [done|]. by apply Hok.
  - by apply Hraise.
Qed.

Lemma runs_emit ev w (Q : unit → world → Prop) :
  (∀ w', w_rng w' = w_rng w → Q tt w') → runs (emit ev) w Q.
Proof. intros HQ. eexists _, _. split; [reflexivity|]. by apply HQ. Qed.

Lemma runs_tick w (Q : nat → world → Prop) :
  (∀ w', w_rng w' = w_rng w → Q (w_tick w) w') → runs tick w Q.
Proof. intros HQ. eexists _, _. split; [reflexivity|]. by apply HQ. Qed.

Lemma analyze_runs p w :
  cost_nonzero (w_rng w) = true →
  runs (analyze_solar_potential p) w (λ _ _, True).
Proof.
  intros Hcost. destruct (has_solar_panels p) eqn:Hsolar.
  - unfold analyze_solar_potential. rewrite Hsolar. by apply runs_ret.
  - eapply runs_mono; [by apply analyze_non_solar|]. done.
Qed.

(** A row of the loop is a [result_row] whose path is the fetcher's. *)
Lemma process_one_inv p w row w' :
  process_one env api_key output_dir p w = (Ok row, w') →
  ∃ a t, row = result_row p (fetched env output_dir (latitude p) (longitude p) 19 w) a t.
Proof.
  intros Hone. unfold process_one in Hone.
  apply bind_Ok_inv in Hone as (path & w1 & Hfetch & Hone).
  apply bind_Ok_inv in Hone as (a & w2 & _ & Hone).
  apply bind_Ok_inv in Hone as (k & w3 & _ & Hone).
  injection Hone as <- _.
  pose proof (download_house_image_runs env api_key output_dir
                (latitude p) (longitude p) 19 w) as Hruns.
  destruct (runs_inv _ _ _ _ _ Hruns Hfetch) as [-> _]. eauto.
Qed.

Lemma process_one_runs p w :
  sizing_nonzero →
  runs (process_one env api_key output_dir p) w
    (λ row _, ∃ a t,
       row = result_row p (fetched env output_dir (latitude p) (longitude p) 19 w) a t).
Proof.
  intros Hsize. unfold process_one. apply runs_bind.
  eapply runs_mono; [apply download_house_image_runs|].
  intros path w1 [-> Hrng]. apply runs_bind.
  eapply runs_mono; [by apply analyze_runs|].
  intros a w2 _. apply runs_bind, runs_tick. intros w3 _.
  apply runs_ret. eauto.
Qed.

(** The loop never raises, and every row it returns is one it was given
    or one [process_one] made. *)
Lemma process_loop_rows (P : gmap string pyval → Prop) properties :
  (∀ p path a t, P (result_row p path a t)) →
  ∀ total i results w, Forall P results →
    runs (process_loop env api_key output_dir total i properties results) w
      (λ out _, Forall P out).
Proof.
  intros Hrow. induction properties as [|p rest IH]; intros total i results w Hresults.
  - by apply runs_ret.
  - cbn [process_loop]. apply runs_bind, runs_emit. intros w1 _.
    apply runs_bind, runs_try_except.
    + intros out w2 Hbody. apply IH.
      apply bind_Ok_inv in Hbody as (row & w3 & Hone & Hbody).
      apply bind_Ok_inv in Hbody as ([] & w4 & _ & Hbody).
      injection Hbody as <- _.
      apply process_one_inv in Hone as (a & t & ->).
      apply Forall_app. split; [done|]. by constructor.
    + intros e w2 _. apply runs_bind, runs_emit. intros w3 _.
      apply runs_ret. by apply IH.
Qed.

(** When [process_one] returns on every property, the loop keeps them all. *)
Lemma process_loop_all (P : gmap string pyval → Prop) properties :
  (∀ p w, runs (process_one env api_key output_dir p) w (λ row _, P row)) →
  ∀ total i results w, Forall P results →
    runs (process_loop env api_key output_dir total i properties results) w
      (λ out _, Forall P out ∧
                length out = (length results + length properties)%nat).
Proof.
  intros Hone. induction properties as [|p rest IH]; intros total i results w Hresults.
  - apply runs_ret. split; [done|]. simpl. lia.
  - cbn [process_loop]. apply runs_bind, runs_emit. intros w1 _.
    destruct (Hone p w1) as (row & w2 & Hrow & HP).
    apply runs_bind, runs_try_except.
    + intros out w3 Hbody.
      apply bind_Ok_inv in Hbody as (row' & w4 & Hrow' & Hbody).
      apply bind_Ok_inv in Hbody as ([] & w5 & _ & Hbody).
      injection Hbody as <- _.
      assert (row' = row) as -> by congruence.
      eapply runs_mono.
      * apply IH. apply Forall_app. split; [done|]. by constructor.
      * intros out w6 [Hout Hlen]. split; [done|].
        rewrite Hlen, length_app. simpl. lia.
    + intros e w3 Hbody. unfold bind in Hbody. rewrite Hrow in Hbody.
      discriminate.
Qed.

Lemma summary_row_runs row w :
  has_summary_keys row → runs (summary_row row) w (λ _ w', w' = w).
Proof.
  intros ([pid Hpid] & [owner Howner] & [addr Haddr] & [lat Hlat] & [lon Hlon]).
  unfold summary_row, getitem. rewrite Hpid, Howner, Haddr, Hlat, Hlon.
  eexists _, _. split; [reflexivity|]. done.
Qed.

Lemma summary_rows_runs rows w :
  Forall has_summary_keys rows → runs (summary_rows rows) w (λ _ w', w' = w).
Proof.
  induction 1 as [|row rows Hrow Hrows IH]; [by apply runs_ret|].
  cbn [summary_rows]. apply runs_bind.
  eapply runs_mono; [by apply summary_row_runs|]. intros s ? ->.
  apply runs_bind. eapply runs_mono; [exact IH|]. intros ss ? ->.
  by apply runs_ret.
Qed.

(** The steps after the loop return the rows of the loop when no write fails. *)
Lemma after_loop_runs results w (Q : list (gmap string pyval) → Prop) :
  (∀ k path, write_fails env k path = None) →
  Forall has_summary_keys results → Q results →
  runs (match results with
        | [] => ret results
        | _ =>
            let results_csv := output_dir +:+ "/data/solar_houses_results.csv" in
            let* _ := to_csv env results_csv results in
            let* summary_data := summary_rows results in
            let summary_csv := output_dir +:+ "/data/solar_houses_summary.csv" in
            let* _ := to_csv env summary_csv summary_data in
            let* _ := log INFO (MsgResultsSaved results_csv) in
            let* _ := log INFO (MsgSummarySaved summary_csv) in
            let* _ := _generate_reports env output_dir results in
            let* _ := _create_interactive_map env output_dir results in
            ret results
        end) w (λ out _, Q out).
Proof.
  intros Hwrite Hkeys HQ. destruct results as [|row rows]; [by apply runs_ret|].
  set (results := row :: rows) in *.
  apply runs_bind. unfold to_csv at 1.
  apply runs_bind, runs_tick. intros w1 _. cbv beta. rewrite Hwrite.
  apply runs_emit. intros w2 _.
  apply runs_bind. eapply runs_mono; [by apply summary_rows_runs|]. intros ss ? ->.
  apply runs_bind. unfold to_csv.
  apply runs_bind, runs_tick. intros w3 _. cbv beta. rewrite Hwrite.
  apply runs_emit. intros w4 _.
  apply runs_bind, runs_emit. intros w5 _.
  apply runs_bind, runs_emit. intros w6 _.
  apply runs_bind. unfold _generate_reports. subst results. cbn iota.
  apply runs_bind, runs_tick. intros w7 _. cbv beta. rewrite Hwrite.
  apply runs_bind, runs_emit. intros w8 _. apply runs_emit. intros w9 _.
  apply runs_bind. unfold _create_interactive_map. apply runs_try_except.
  - intros saved w10 _. by apply runs_ret.
  - intros e w10 _. apply runs_bind, runs_emit. intros w11 _.
    apply runs_ret. by apply runs_ret.
Qed.

(** Whatever the orchestrator returns, it is what its loop returned. *)
Lemma process_properties_inv max_properties location w results w' :
  process_properties env api_key output_dir max_properties location w = (Ok results, w') →
  ∃ properties w1 w2,
    process_loop env api_key output_dir (length properties) 0 properties [] w1
      = (Ok results, w2).
Proof.
  intros Hrun. unfold process_properties in Hrun.
  do 3 (apply bind_Ok_inv in Hrun as (? & ? & _ & Hrun)).
  apply bind_Ok_inv in Hrun as (properties & ? & _ & Hrun).
  do 2 (apply bind_Ok_inv in Hrun as (? & ? & _ & Hrun)).
  apply bind_Ok_inv in Hrun as (out & w2 & Hloop & Hrun).
  exists properties. eexists _, w2.
  destruct out as [|row rows].
  - injection Hrun as <- _. exact Hloop.
  - do 7 (apply bind_Ok_inv in Hrun as (? & ? & _ & Hrun)).
    injection Hrun as <- _. exact Hloop.
Qed.

End OrchestratorProofs.

(** The demo runtime never draws a size that costs zero: the draw depends
    on the generator state through its residue modulo 1024 only. *)
Lemma demo_sizing_nonzero : sizing_nonzero (rt := Demo.runtime).
Proof.
  intros g.
  assert (cost_nonzero (rt := Demo.runtime) g
          = cost_nonzero (rt := Demo.runtime) (g mod 1024)) as ->.
  { unfold cost_nonzero, uniform, Demo.runtime, Demo.demo_uniform, Demo.unit_float.
    cbn [fst]. by rewrite Z.mod_mod. }
  assert (forallb (cost_nonzero (rt := Demo.runtime)) (Z.of_nat <$> seq 0 1024) = true)
    as Hall by (vm_compute; reflexivity).
  rewrite forallb_forall in Hall. apply Hall.
  pose proof (Z.mod_pos_bound g 1024 ltac:(lia)) as Hr.
  apply in_map_iff. exists (Z.to_nat (g mod 1024)). split; [lia|].
  apply in_seq. lia.
Qed.

(** ** The orchestrator: the claims *)

(** C7. When the image fetch returns absent for every property and
    nothing else fails (the scorer's size never costs zero, no write to
    the disk fails), a run over [n] generated properties returns [n] rows,
    each with [image_downloaded] false and [house_image_path] [None]. *)
Theorem orchestrator_keeps_imageless {rt : PyRuntime} (env : Env)
    (api_key output_dir : string) (n : Z) (location : string) (w : world) :
  0 ≤ n →
  sizing_nonzero →
  (∀ k path, write_fails env k path = None) →
  (∀ latitude longitude w0,
      (download_house_image env api_key output_dir latitude longitude 19 w0).1 = Ok None) →
  ∃ results w',
    process_properties env api_key output_dir n location w = (Ok results, w') ∧
    Z.of_nat (length results) = n ∧
    Forall image_missing results.
Proof.
  intros Hn Hsize Hwrite Hfetch.
  change (runs (process_properties env api_key output_dir n location) w
            (λ results _, Z.of_nat (length results) = n ∧ Forall image_missing results)).
  unfold process_properties.
  do 3 (apply runs_bind, runs_emit; intros ? _).
  apply runs_bind. eapply runs_mono; [apply generate_runs|].
  intros properties w4 ((d & _ & Hmade) & _ & _).
  apply Forall2_seq_lookup in Hmade as [Hlen _].
  do 2 (apply runs_bind, runs_emit; intros ? _).
  apply runs_bind.
  eapply runs_mono.
  { apply (process_loop_all env api_key output_dir
             (λ row, image_missing row ∧ has_summary_keys row)); [|done].
    intros p w0. eapply runs_mono; [by apply process_one_runs|].
    intros row w1 (a & t & ->).
    pose proof (download_house_image_runs env api_key output_dir
                  (latitude p) (longitude p) 19 w0) as (r & w2 & Hrun & Hr & _).
    specialize (Hfetch (latitude p) (longitude p) w0).
    rewrite Hrun in Hfetch. simpl in Hfetch.
    assert (fetched env output_dir (latitude p) (longitude p) 19 w0 = None) as ->
      by congruence.
    split; [apply result_row_missing | exact (result_row_summary_keys p None a t)]. }
  intros results w5 [Hrows Hlength]. simpl in Hlength.
  apply (after_loop_runs env output_dir results w5
           (λ out, Z.of_nat (length out) = n ∧ Forall image_missing out)).
  - done.
  - eapply Forall_impl; [exact Hrows|]. by intros row [_ Hkeys].
  - split; [lia|]. eapply Forall_impl; [exact Hrows|]. by intros row [Hmissing _].
Qed.

Lemma orchestrator_keeps_imageless_witness :
  ∃ results w',
    process_properties (rt := Demo.runtime) Demo.offline "KEY" "solar_houses_output"
      10 "St. Tammany Parish, LA" (Demo.world0 2024) = (Ok results, w') ∧
    Z.of_nat (length results) = 10 ∧
    Forall image_missing results.
Proof.
  apply (orchestrator_keeps_imageless (rt := Demo.runtime) Demo.offline
           "KEY" "solar_houses_output" 10 "St. Tammany Parish, LA" (Demo.world0 2024)).
  - lia.
  - exact demo_sizing_nonzero.
  - intros k path. reflexivity.
  - intros latitude longitude w0. reflexivity.
Defined.

(** C8. Run with [max_properties = 0], the orchestrator returns the empty
    collection without raising; it logs its five opening lines and nothing
    more: no CSV file, no report and no map is written, and neither the
    network nor the disk is touched. *)
Theorem orchestrator_empty_run {rt : PyRuntime} (env : Env)
    (api_key output_dir : string) (location : string) (w : world) :
  ∃ w',
    process_properties env api_key output_dir 0 location w = (Ok [], w') ∧
    w_tick w' = w_tick w ∧
    w_events w' = w_events w ++
      [ EvLog INFO (MsgStarting location); EvLog INFO MsgRule; EvLog INFO MsgStep1;
        EvLog INFO (MsgGenerated 0); EvLog INFO MsgStep2 ] ∧
    Forall (λ ev, is_output ev = false) (drop (length (w_events w)) (w_events w')).
Proof.
  destruct (resolver_cases location) as (d & Hd & _ & _).
  unfold process_properties, generate_realistic_properties.
  rewrite Hd. eexists. split; [reflexivity|].
  cbn [w_tick w_events]. split; [done|].
  rewrite <- !app_assoc. cbn [app]. split; [done|].
  rewrite drop_app_length. by repeat constructor.
Qed.

(** C10. In every row of the collection the orchestrator returns,
    [image_downloaded] is true exactly when [house_image_path] is not
    [None]. *)
Theorem result_rows_image_fields_agree {rt : PyRuntime} (env : Env)
    (api_key output_dir : string) (max_properties : Z) (location : string)
    (w : world) (results : list (gmap string pyval)) (w' : world) :
  process_properties env api_key output_dir max_properties location w = (Ok results, w') →
  Forall image_fields_agree results.
Proof.
  intros Hrun.
  apply process_properties_inv in Hrun as (properties & w1 & w2 & Hloop).
  eapply (runs_inv _ _ (λ out _, Forall image_fields_agree out)); [|exact Hloop].
  apply process_loop_rows; [|done].
  intros p path a t. apply result_row_agrees.
Qed.

Lemma result_rows_image_fields_agree_witness :
  ∃ results w',
    process_properties (rt := Demo.runtime) Demo.flaky "KEY" "solar_houses_output"
      4 "Baton Rouge, LA" (Demo.world0 7) = (Ok results, w') ∧
    length results = 4%nat ∧
    Forall image_fields_agree results.
Proof.
  assert (Demo.returned 4
            (process_properties (rt := Demo.runtime) Demo.flaky "KEY" "solar_houses_output"
               4 "Baton Rouge, LA" (Demo.world0 7)) = true) as Hreturned
    by (vm_compute; reflexivity).
  destruct (process_properties (rt := Demo.runtime) Demo.flaky "KEY" "solar_houses_output"
              4 "Baton Rouge, LA" (Demo.world0 7)) as [[results|e] w'] eqn:Hrun;
    [|discriminate].
  exists results, w'. split; [reflexivity|]. split.
  - by apply Nat.eqb_eq.
  - exact (result_rows_image_fields_agree (rt := Demo.runtime) Demo.flaky
             "KEY" "solar_houses_output" 4 "Baton Rouge, LA" (Demo.world0 7)
             results w' Hrun).
Defined.


(** * Further properties of the code *)

(** ** The scorer *)

Lemma base_score_bounds p : 50 ≤ base_score p ≤ 105.
Proof.
  rewrite base_score_spec.
  unfold spec_base_sum, spec_roof_bonus, spec_age_bonus, spec_value_bonus.
  repeat case_decide; lia.
Qed.

(** X1. Whenever the size it draws does not cost zero, the scorer returns,
    and what it returns is within bounds: a score from 50 to 100 (100 with
    panels), an installation cost that is the recommended size times 3000
    on both branches, and, without panels, savings from 600 to 1800 with
    size, payback and ROI all floats. *)
Theorem scorer_result_bounds {rt : PyRuntime} (p : PropertyRecord) (w : world) :
  cost_nonzero (w_rng w) = true →
  ∃ a w', analyze_solar_potential p w = (Ok a, w') ∧
    50 ≤ solar_potential_score a ≤ 100 ∧
    (has_solar_panels p = true → solar_potential_score a = 100) ∧
    estimated_installation_cost a = num_mul (recommended_system_size_kw a) (Int 3000) ∧
    (has_solar_panels p = false →
       600 ≤ estimated_annual_savings a ≤ 1800 ∧
       is_Float (recommended_system_size_kw a) = true ∧
       is_Float (payback_period_years a) = true ∧
       is_Float (roi_percentage a) = true).
Proof.
  intros Hcost. pose proof (base_score_bounds p) as Hbase.
  unfold analyze_solar_potential. destruct (has_solar_panels p) eqn:Hsolar.
  - eexists _, _. split; [reflexivity|]. cbn. repeat split; (lia || done).
  - unfold cost_nonzero in Hcost. apply negb_true_iff in Hcost.
    unfold bind, random_uniform, random_randint, draw, lift, ret.
    destruct (uniform 6 12 (w_rng w)) as [x g1] eqn:Hx. cbn [w_rng fst] in *.
    pose proof (randint_range 600 1800 g1 ltac:(lia)) as Hs.
    destruct (randint 600 1800 g1) as [s g2] eqn:Hs'. cbn [fst] in Hs.
    unfold num_truediv. rewrite Hcost. cbn [num_is_zero].
    rewrite bool_decide_eq_false_2 by lia.
    eexists _, _. split; [reflexivity|]. cbn. repeat split; (lia || done).
Qed.

Lemma scorer_result_bounds_witness :
  ∃ a w', analyze_solar_potential (rt := Demo.runtime) Demo.metal_house (Demo.world0 5)
            = (Ok a, w') ∧
    50 ≤ solar_potential_score a ≤ 100 ∧
    estimated_installation_cost a = num_mul (recommended_system_size_kw a) (Int 3000) ∧
    600 ≤ estimated_annual_savings a ≤ 1800.
Proof.
  destruct (scorer_result_bounds (rt := Demo.runtime) Demo.metal_house (Demo.world0 5) eq_refl)
    as (a & w' & Hrun & Hscore & _ & Hcost & Hrest).
  destruct (Hrest eq_refl) as (Hsavings & _).
  by exists a, w'.
Defined.

(** X2. The only exception the scorer raises is [ZeroDivisionError], only
    on a record without panels, and exactly when the size it drew costs
    zero: the savings it draws are never zero. *)
Theorem scorer_raises_only_zero_division {rt : PyRuntime} (p : PropertyRecord) (w : world) :
  match (analyze_solar_potential p w).1 with
  | Ok _ => has_solar_panels p = true ∨ cost_nonzero (w_rng w) = true
  | Raise e =>
      e = ZeroDivisionError ∧ has_solar_panels p = false ∧ cost_nonzero (w_rng w) = false
  end.
Proof.
  unfold analyze_solar_potential. destruct (has_solar_panels p) eqn:Hsolar.
  - cbn. by left.
  - unfold cost_nonzero, bind, random_uniform, random_randint, draw, lift, ret.
    destruct (uniform 6 12 (w_rng w)) as [x g1] eqn:Hx. cbn [w_rng fst].
    pose proof (randint_range 600 1800 g1 ltac:(lia)) as Hs.
    destruct (randint 600 1800 g1) as [s g2] eqn:Hs'. cbn [fst] in Hs.
    unfold num_truediv. cbn [num_is_zero].
    rewrite bool_decide_eq_false_2 by lia.
    destruct (num_is_zero (num_mul (Float (round1 x)) (Int 3000))); cbn.
    + done.
    + by right.
Qed.

(** X3. Among records without panels and with the same roof type, a roof
    that is no older and a value that is no lower never score less. *)
Theorem scorer_monotone {rt : PyRuntime} (p q : PropertyRecord) (w1 w2 : world)
    (a b : Analysis) (w1' w2' : world) :
  analyze_solar_potential p w1 = (Ok a, w1') →
  analyze_solar_potential q w2 = (Ok b, w2') →
  has_solar_panels p = false → has_solar_panels q = false →
  roof_type p = roof_type q →
  roof_age_years p ≤ roof_age_years q →
  property_value q ≤ property_value p →
  solar_potential_score b ≤ solar_potential_score a.
Proof.
  intros Ha Hb Hp Hq Hroof Hage Hvalue.
  assert (∀ r w c w', has_solar_panels r = false →
            analyze_solar_potential r w = (Ok c, w') →
            solar_potential_score c = Z.min 100 (base_score r)) as Hscore.
  { intros r w c w' Hr Hrun. unfold analyze_solar_potential in Hrun. rewrite Hr in Hrun.
    unfold bind, random_uniform, random_randint, draw, lift, ret in Hrun.
    destruct (uniform 6 12 (w_rng w)) as [x g1]. cbn [w_rng] in Hrun.
    destruct (randint 600 1800 g1) as [s g2].
    destruct (num_truediv _ (Int s)); [|discriminate].
    destruct (num_truediv (Int _) _); [|discriminate].
    by injection Hrun as <- _. }
  rewrite (Hscore p w1 a w1' Hp Ha), (Hscore q w2 b w2' Hq Hb).
  rewrite !base_score_spec. unfold spec_base_sum, spec_age_bonus, spec_value_bonus.
  rewrite Hroof. repeat case_decide; lia.
Qed.

Lemma scorer_monotone_witness :
  ∃ a w1' b w2',
    analyze_solar_potential (rt := Demo.runtime) Demo.metal_house (Demo.world0 1) = (Ok a, w1') ∧
    analyze_solar_potential (rt := Demo.runtime) Demo.old_metal_house (Demo.world0 9) = (Ok b, w2') ∧
    solar_potential_score b ≤ solar_potential_score a.
Proof.
  destruct (analyze_non_solar (rt := Demo.runtime) Demo.metal_house (Demo.world0 1)
              eq_refl eq_refl) as (a & w1' & Ha & _).
  destruct (analyze_non_solar (rt := Demo.runtime) Demo.old_metal_house (Demo.world0 9)
              eq_refl eq_refl) as (b & w2' & Hb & _).
  exists a, w1', b, w2'. split; [exact Ha|]. split; [exact Hb|].
  apply (scorer_monotone (rt := Demo.runtime) Demo.metal_house Demo.old_metal_house
           (Demo.world0 1) (Demo.world0 9) a b w1' w2' Ha Hb eq_refl eq_refl eq_refl).
  - cbn. lia.
  - cbn. lia.
Defined.

(** ** The generator *)

Section GeneratorMore.

Context {rt : PyRuntime}.

Ltac shared_draws hs :=
  apply (quiet_bind _ _ _ (λ _, True));
    [eapply quiet_mono; [apply quiet_if_else, quiet_randint; lia | done]
    | intros panel_count ? _ _ _];
  apply (quiet_bind _ _ _ (λ _, True));
    [eapply quiet_mono; [apply quiet_if_else, (quiet_float _ _ id) | done]
    | intros panel_area ? _ _ _];
  apply (quiet_bind _ _ _ (λ _, True));
    [eapply quiet_mono; [apply quiet_if_else, quiet_year; lia | done]
    | intros year ? _ _ _];
  apply (quiet_bind _ _ _ (λ _, True));
    [eapply quiet_mono; [apply quiet_if_else, (quiet_float _ _ round1) | done]
    | intros size ? _ _ _];
  apply (quiet_bind _ _ _ (λ _, True));
    [eapply quiet_mono; [apply quiet_if_else, quiet_randint; lia | done]
    | intros savings ? _ _ _];
  apply (quiet_bind _ _ _ (λ z, 200000 ≤ z ≤ 600000));
    [apply quiet_randint; lia | intros value ? Hvalue _ _];
  apply (quiet_bind _ _ _ (λ r, r ∈ roof_types));
    [by apply quiet_choice | intros roof ? Hroof _ _];
  apply (quiet_bind _ _ _ (λ z, 5 ≤ z ≤ 25));
    [apply quiet_randint; lia | intros age ? Hage _ _];
  apply quiet_ret.

Lemma make_property_draws location_data i w :
  cities location_data ≠ [] →
  runs (make_property location_data i) w (quiet w (drawn_from location_data i)).
Proof.
  intros Hcities. unfold make_property. case_bool_decide as Hi.
  - destruct (lookup_lt_is_Some_2 _ _ Hi) as [c Hc].
    unfold index. rewrite Hc.
    apply (quiet_bind _ _ _ (λ x, x = c)); [by apply runs_lift|].
    intros ? w0 -> _ _.
    shared_draws (addr_has_solar c).
    unfold drawn_from. cbn [owner_name property_value roof_type roof_age_years address].
    repeat split; try done; try lia.
  - apply (quiet_bind _ _ _ (λ _, True)); [apply quiet_uniform | intros lat ? _ _ _].
    apply (quiet_bind _ _ _ (λ _, True)); [apply quiet_uniform | intros lon ? _ _ _].
    apply (quiet_bind _ _ _ (λ _, True)); [apply quiet_random | intros r ? _ _ _].
    apply (quiet_bind _ _ _ (λ z, 100 ≤ z ≤ 9999));
      [apply quiet_randint; lia | intros number ? Hnumber _ _].
    apply (quiet_bind _ _ _ (λ x, x ∈ street_names));
      [by apply quiet_choice | intros street ? Hstreet _ _].
    apply (quiet_bind _ _ _ (λ x, x ∈ cities location_data));
      [by apply quiet_choice | intros city ? Hcity _ _].
    shared_draws (PrimFloat.ltb r 0.3).
    unfold drawn_from. cbn [owner_name property_value roof_type roof_age_years address].
    repeat split; try done; try lia.
    intros _. by exists number, street, city.
Qed.

Lemma generate_loop_with (P : nat → PropertyRecord → Prop) location_data :
  (∀ i w, runs (make_property location_data i) w (quiet w (P i))) →
  ∀ indices properties w,
    runs (generate_loop location_data indices properties) w
      (quiet w (λ out, ∃ made, out = properties ++ made ∧ Forall2 P indices made)).
Proof.
  intros Hmake indices. induction indices as [|i rest IH]; intros properties w; simpl.
  - apply quiet_ret. exists []. by rewrite app_nil_r.
  - apply (quiet_bind _ _ _ (P i)); [by apply Hmake|].
    intros p w' Hp _ _. eapply quiet_mono; [apply IH|].
    intros out (made & -> & Hmade). exists (p :: made).
    rewrite <- app_assoc. split; [done|]. by constructor.
Qed.

Lemma generate_draws count location w :
  runs (generate_realistic_properties count location) w
    (quiet w (λ out, ∃ location_data,
                _get_location_data location = Ok location_data ∧
                Forall2 (drawn_from location_data) (seq 0 (Z.to_nat count)) out)).
Proof.
  unfold generate_realistic_properties.
  destruct (resolver_cases location) as (d & Hd & Hcities & _). rewrite Hd.
  apply (quiet_bind _ _ _ (λ x, x = d)); [by apply runs_lift|].
  intros ? w' -> _ _.
  eapply quiet_mono.
  - apply (generate_loop_with (drawn_from d)). intros i w0. by apply make_property_draws.
  - intros out (made & -> & Hmade). by exists d.
Qed.

(** The loop over a concatenation of indices is the loop over the first
    part, continued over the second. *)
Lemma generate_loop_app location_data indices1 indices2 properties w :
  generate_loop location_data (indices1 ++ indices2) properties w =
  bind (generate_loop location_data indices1 properties)
       (λ out, generate_loop location_data indices2 out) w.
Proof.
  revert properties w. induction indices1 as [|i rest IH]; intros properties w; simpl.
  - reflexivity.
  - unfold bind in *.
    destruct (make_property location_data i w) as [[p|e] w1]; [|reflexivity].
    apply IH.
Qed.

End GeneratorMore.

(** X4. Every generated record has the owner name [Property Owner i+1],
    a value from 200000 to 600000, one of the four roof types and a roof
    age from 5 to 25; past the curated addresses its address reads
    [<number> <street> St, <city>] with a number from 100 to 9999, one of
    the five street names and a city of the resolved location. *)
Theorem generator_attributes {rt : PyRuntime} (count : Z) (location : string) (w : world) :
  ∃ properties w' location_data,
    generate_realistic_properties count location w = (Ok properties, w') ∧
    _get_location_data location = Ok location_data ∧
    ∀ i p, properties !! i = Some p → drawn_from location_data i p.
Proof.
  destruct (generate_draws count location w)
    as (properties & w' & Hrun & (d & Hd & Hmade) & _).
  apply Forall2_seq_lookup in Hmade as [_ Hmade].
  by exists properties, w', d.
Qed.

(** X5. The generator only draws random numbers: it sends no request,
    writes no file and logs nothing. *)
Theorem generator_only_draws {rt : PyRuntime} (count : Z) (location : string) (w : world) :
  ∃ properties w',
    generate_realistic_properties count location w = (Ok properties, w') ∧
    w_tick w' = w_tick w ∧ w_events w' = w_events w.
Proof.
  destruct (generate_runs count location w) as (properties & w' & Hrun & _ & Ht & He).
  by exists properties, w'.
Qed.

(** X6. A count of zero or less gives the empty list, with no draw made. *)
Theorem generator_nonpositive_count {rt : PyRuntime}
    (count : Z) (location : string) (w : world) :
  count ≤ 0 → generate_realistic_properties count location w = (Ok [], w).
Proof.
  intros Hcount. unfold generate_realistic_properties.
  destruct (resolver_cases location) as (d & Hd & _ & _). rewrite Hd.
  replace (Z.to_nat count) with 0%nat by lia. reflexivity.
Qed.

Lemma generator_nonpositive_count_witness :
  generate_realistic_properties (rt := Demo.runtime) (-3) "Baton Rouge, LA" (Demo.world0 11)
    = (Ok [], Demo.world0 11).
Proof.
  apply (generator_nonpositive_count (rt := Demo.runtime) (-3) "Baton Rouge, LA"
           (Demo.world0 11)).
  lia.
Defined.

(** X7. From the same generator state, the records of a shorter run are
    the first records of a longer one. *)
Theorem generator_prefix {rt : PyRuntime} (n m : Z) (location : string) (w : world) :
  n ≤ m →
  ∃ shorter w1 longer w2,
    generate_realistic_properties n location w = (Ok shorter, w1) ∧
    generate_realistic_properties m location w = (Ok longer, w2) ∧
    shorter `prefix_of` longer.
Proof.
  intros Hnm.
  destruct (generate_runs n location w) as (shorter & w1 & Hshort & _).
  exists shorter, w1.
  unfold generate_realistic_properties in *.
  destruct (resolver_cases location) as (d & Hd & Hcities & _). rewrite Hd in *.
  unfold bind, lift in *.
  replace (Z.to_nat m) with (Z.to_nat n + (Z.to_nat m - Z.to_nat n))%nat by lia.
  rewrite seq_app, generate_loop_app. unfold bind. rewrite Hshort.
  destruct (generate_loop_runs d (seq (0 + Z.to_nat n) (Z.to_nat m - Z.to_nat n))
              shorter w1 Hcities) as (longer & w2 & Hlong & (made & -> & _) & _).
  exists (shorter ++ made), w2. split; [done|]. split; [done|].
  by exists made.
Qed.

Lemma generator_prefix_witness :
  ∃ shorter w1 longer w2,
    generate_realistic_properties (rt := Demo.runtime) 3 "New Orleans, LA" (Demo.world0 42)
      = (Ok shorter, w1) ∧
    generate_realistic_properties (rt := Demo.runtime) 8 "New Orleans, LA" (Demo.world0 42)
      = (Ok longer, w2) ∧
    shorter `prefix_of` longer.
Proof.
  apply (generator_prefix (rt := Demo.runtime) 3 8 "New Orleans, LA" (Demo.world0 42)).
  lia.
Defined.

(** ** The resolver *)

(** X8. Whatever the location, the resolved data is consistent: at least
    three curated addresses, at least one city, a bounding box with south
    below north and west below east, and every curated address inside it. *)
Theorem resolver_data_consistent (location : string) :
  ∃ d, _get_location_data location = Ok d ∧
    (3 ≤ length (addresses d))%nat ∧
    cities d ≠ [] ∧
    PrimFloat.ltb (south (bounds d)) (north (bounds d)) = true ∧
    PrimFloat.ltb (west (bounds d)) (east (bounds d)) = true ∧
    Forall (λ a, inside (bounds d) a = true) (addresses d).
Proof.
  destruct (resolver_cases location) as (d & Hd & Hcities & Hcase).
  exists d. split; [done|].
  destruct (_ || _); [subst d; repeat split; try done; by repeat constructor|].
  destruct (_ || _); [subst d; repeat split; try done; by repeat constructor|].
  destruct (PyStr.contains "baton rouge" _);
    [subst d; repeat split; try done; by repeat constructor|].
  destruct Hcase as [Hbounds Haddresses]. rewrite Hbounds, Haddresses.
  repeat split; try done. by repeat constructor.
Qed.









(** ** Traces *)

Section TraceProofs.

Context {rt : PyRuntime}.

Lemma traced_ret {A} (a : A) w (Q : outcome A → world → list event → Prop) :
  Q (Ok a) w [] → traced (ret a) w Q.
Proof. intros HQ. exists (Ok a), w, []. by rewrite app_nil_r. Qed.

Lemma traced_lift {A} (r : outcome A) w (Q : outcome A → world → list event → Prop) :
  Q r w [] → traced (lift r) w Q.
Proof. intros HQ. exists r, w, []. by rewrite app_nil_r. Qed.

Lemma traced_raise {A} (e : exn) w (Q : outcome A → world → list event → Prop) :
  Q (Raise e) w [] → traced (raise e) w Q.
Proof. intros HQ. exists (Raise e), w, []. by rewrite app_nil_r. Qed.

Lemma traced_emit ev w (Q : outcome unit → world → list event → Prop) :
  (∀ w', w_rng w' = w_rng w → w_tick w' = w_tick w → Q (Ok tt) w' [ev]) →
  traced (emit ev) w Q.
Proof. intros HQ. eexists _, _, [ev]. split; [reflexivity|]. split; [done|]. by apply HQ. Qed.

Lemma traced_tick w (Q : outcome nat → world → list event → Prop) :
  (∀ w', w_rng w' = w_rng w → w_tick w' = S (w_tick w) → Q (Ok (w_tick w)) w' []) →
  traced tick w Q.
Proof.
  intros HQ. eexists _, _, []. split; [reflexivity|].
  split; [by rewrite app_nil_r|]. by apply HQ.
Qed.

Lemma traced_bind {A B} (m : M A) (k : A → M B) w
    (Q : outcome B → world → list event → Prop) :
  traced m w (λ r w1 new1,
    match r with
    | Ok a => traced (k a) w1 (λ r2 w2 new2, Q r2 w2 (new1 ++ new2))
    | Raise e => Q (Raise e) w1 new1
    end) →
  traced (bind m k) w Q.
Proof.
  intros (r & w1 & new1 & Hm & He1 & Hk). unfold traced, bind. rewrite Hm.
  destruct r as [a|e].
  - destruct Hk as (r2 & w2 & new2 & Hk & He2 & HQ).
    exists r2, w2, (new1 ++ new2). split; [done|].
    split; [|done]. by rewrite He2, He1, app_assoc.
  - by exists (Raise e), w1, new1.
Qed.

Lemma traced_try_except {A} (body : M A) (handler : exn → M A) w
    (Q : outcome A → world → list event → Prop) :
  traced body w (λ r w1 new1,
    match r with
    | Ok a => Q (Ok a) w1 new1
    | Raise e => traced (handler e) w1 (λ r2 w2 new2, Q r2 w2 (new1 ++ new2))
    end) →
  traced (try_except body handler) w Q.
Proof.
  intros (r & w1 & new1 & Hm & He1 & Hk). unfold traced, try_except. rewrite Hm.
  destruct r as [a|e].
  - by exists (Ok a), w1, new1.
  - destruct Hk as (r2 & w2 & new2 & Hk & He2 & HQ).
    exists r2, w2, (new1 ++ new2). split; [done|].
    split; [|done]. by rewrite He2, He1, app_assoc.
Qed.

Lemma traced_mono {A} (m : M A) w (Q Q' : outcome A → world → list event → Prop) :
  traced m w Q → (∀ r w' new, Q r w' new → Q' r w' new) → traced m w Q'.
Proof. intros (r & w' & new & Hm & He & HQ) Himp. exists r, w', new. eauto. Qed.

Lemma traced_inv {A} (m : M A) w (Q : outcome A → world → list event → Prop) r w' :
  traced m w Q → m w = (r, w') → ∃ new, w_events w' = w_events w ++ new ∧ Q r w' new.
Proof. intros (r0 & w0 & new & Hm & He & HQ) Heq. exists new. split; congruence. Qed.

(** A computation that only draws appends no event. *)
Lemma traced_quiet {A} (m : M A) w (P : A → Prop) :
  runs m w (quiet w P) →
  traced m w (λ r w' new, new = [] ∧ w_tick w' = w_tick w ∧ ∃ a, r = Ok a ∧ P a).
Proof.
  intros (a & w' & Hm & HP & Ht & He). exists (Ok a), w', [].
  split; [done|]. split; [by rewrite app_nil_r|]. eauto.
Qed.

(** The scorer appends no event and leaves the clock alone, whether it
    returns or raises. *)
Lemma analyze_traced p w :
  traced (analyze_solar_potential p) w (λ _ w' new, new = [] ∧ w_tick w' = w_tick w).
Proof.
  unfold traced, analyze_solar_potential. destruct (has_solar_panels p).
  - eexists _, _, []. split; [reflexivity|]. by rewrite app_nil_r.
  - unfold bind, random_uniform, random_randint, draw, lift, ret.
    destruct (uniform 6 12 (w_rng w)) as [x g1]. cbn [w_rng].
    destruct (randint 600 1800 g1) as [s g2].
    destruct (num_truediv _ (Int s)) as [years|e];
      [destruct (num_truediv (Int _) _) as [ratio|e]|];
      eexists _, _, []; (split; [reflexivity|]); by rewrite app_nil_r.
Qed.

Lemma count_app f xs ys : count f (xs ++ ys) = (count f xs + count f ys)%nat.
Proof. unfold count. by rewrite List.filter_app, length_app. Qed.

Lemma count_cons f x xs :
  count f (x :: xs) = ((if f x then 1 else 0) + count f xs)%nat.
Proof. unfold count. simpl. by destruct (f x). Qed.

Lemma count_nil f : count f [] = 0%nat.
Proof. reflexivity. Qed.

End TraceProofs.

(** ** The image fetcher *)

Lemma download_events {rt : PyRuntime} (env : Env) (api_key output_dir : string)
    (latitude longitude : float) (zoom_level : Z) (w : world) :
  ∃ r w',
    download_house_image env api_key output_dir latitude longitude zoom_level w = (Ok r, w') ∧
    w_rng w' = w_rng w ∧
    match r with
    | Some path =>
        ∃ content,
          http_get env (w_tick w) latitude longitude zoom_level = Response 200 content ∧
          w_events w' = w_events w ++
            [ EvHttpGet (latitude, longitude) zoom_level api_key;
              EvImageWritten path content;
              EvLog INFO (MsgImageDownloaded path) ]
    | None =>
        (∃ status_code,
           w_events w' = w_events w ++
             [ EvHttpGet (latitude, longitude) zoom_level api_key;
               EvLog WARNING (MsgDownloadFailed status_code) ]) ∨
        (∃ e,
           w_events w' = w_events w ++
             [ EvHttpGet (latitude, longitude) zoom_level api_key;
               EvLog ERROR (MsgDownloadError e) ])
    end.
Proof.
  unfold download_house_image, try_except, requests_get, write_image,
    bind, tick, log, emit, ret, raise.
  cbn [w_tick w_rng w_events].
  destruct (http_get env (w_tick w) latitude longitude zoom_level)
    as [status_code content|e] eqn:Hreply; cbn [fst snd w_tick w_rng w_events].
  - case_bool_decide as Hstatus; cbn [w_tick w_rng w_events].
    + subst status_code.
      destruct (write_fails env (S (w_tick w)) _); cbn [w_tick w_rng w_events].
      * eexists _, _. split; [reflexivity|]. split; [done|].
        right. eexists. cbn [w_events]. by rewrite <- !app_assoc.
      * eexists _, _. split; [reflexivity|]. split; [done|].
        exists content. split; [done|]. cbn [w_events]. by rewrite <- !app_assoc.
    + eexists _, _. split; [reflexivity|]. split; [done|].
      left. eexists. cbn [w_events]. by rewrite <- !app_assoc.
  - eexists _, _. split; [reflexivity|]. split; [done|].
    right. eexists. cbn [w_events]. by rewrite <- !app_assoc.
Qed.


(** ** The orchestrator *)

Section OrchestratorTraces.

Context {rt : PyRuntime} (env : Env) (api_key output_dir : string).

Lemma download_counts latitude longitude zoom_level w :
  traced (download_house_image env api_key output_dir latitude longitude zoom_level) w
    (λ r w' new, (∃ path, r = Ok path) ∧
                 count is_request new = 1%nat ∧ count is_processing_error new = 0%nat ∧
                 count is_sleep new = 0%nat ∧ count is_output new = 0%nat).
Proof.
  destruct (download_events env api_key output_dir latitude longitude zoom_level w)
    as (r & w' & Hrun & _ & Hevents).
  destruct r as [path|].
  - destruct Hevents as (content & _ & Hevents).
    eexists _, _, _. split; [exact Hrun|]. split; [exact Hevents|].
    split; [by eexists|]. by repeat split.
  - destruct Hevents as [[status_code Hevents]|[e Hevents]];
      eexists _, _, _; (split; [exact Hrun|]); (split; [exact Hevents|]);
      (split; [by eexists|]); by repeat split.
Qed.

Lemma process_one_traced p w :
  traced (process_one env api_key output_dir p) w
    (λ _ _ new, count is_request new = 1%nat ∧ count is_processing_error new = 0%nat ∧
                count is_sleep new = 0%nat ∧ count is_output new = 0%nat).
Proof.
  unfold process_one. apply traced_bind.
  eapply traced_mono; [apply download_counts|].
  intros r w1 new1 ((path & ->) & Hreq & Herr & Hsleep & Hout).
  apply traced_bind. eapply traced_mono; [apply analyze_traced|].
  intros r w2 new2 [-> _]. rewrite app_nil_r. destruct r as [a|e]; [|done].
  apply traced_bind, traced_tick. intros w3 _ _. apply traced_ret.
  by rewrite !app_nil_r.
Qed.

(** The loop never raises; it sends one request per property, and every
    property ends either as a row, followed by one pause, or as one
    logged error. *)
Lemma process_loop_traced properties :
  ∀ total i results w,
    traced (process_loop env api_key output_dir total i properties results) w
      (λ r _ new, ∃ out, r = Ok out ∧
         count is_request new = length properties ∧
         (length out + count is_processing_error new
            = length results + length properties)%nat ∧
         (count is_sleep new + length results = length out)%nat ∧
         count is_output new = 0%nat).
Proof.
  induction properties as [|p rest IH]; intros total i results w.
  - apply traced_ret. exists results. cbn. split; [done|]. lia.
  - cbn [process_loop]. apply traced_bind, traced_emit. intros w1 _ _.
    apply traced_bind, traced_try_except, traced_bind.
    eapply traced_mono; [apply process_one_traced|].
    intros r w2 new2 (Hreq & Herr & Hsleep & Hout). destruct r as [row|e].
    + apply traced_bind, traced_emit. intros w3 _ _. apply traced_ret.
      eapply traced_mono; [apply IH|].
      intros r w4 new4 (out & -> & Hreq4 & Herr4 & Hsleep4 & Hout4).
      exists out. split; [done|].
      rewrite !count_app, !count_cons, !count_nil, Hreq, Herr, Hsleep, Hout, Hreq4, Hout4.
      rewrite length_app in Herr4, Hsleep4.
      cbn [is_request is_processing_error is_sleep is_output length] in *. lia.
    + apply traced_bind, traced_emit. intros w3 _ _. apply traced_ret.
      eapply traced_mono; [apply IH|].
      intros r w4 new4 (out & -> & Hreq4 & Herr4 & Hsleep4 & Hout4).
      exists out. split; [done|].
      rewrite !count_app, !count_cons, !count_nil, Hreq, Herr, Hsleep, Hout, Hreq4, Hout4.
      cbn [is_request is_processing_error is_sleep is_output length] in *. lia.
Qed.

End OrchestratorTraces.

Section OrchestratorOutputs.

Context {rt : PyRuntime} (env : Env) (api_key output_dir : string).

Lemma traced_and_runs {A} (m : M A) w (Q : outcome A → world → list event → Prop)
    (P : A → world → Prop) :
  traced m w Q → runs m w P →
  traced m w (λ r w' new, Q r w' new ∧ ∃ a, r = Ok a ∧ P a w').
Proof.
  intros (r & w' & new & Hm & He & HQ) (a & w'' & Hm' & HP).
  exists r, w', new. split; [done|]. split; [done|]. split; [done|].
  exists a. split; congruence.
Qed.

Lemma traced_same_world {A} (m : M A) w (P : A → Prop) :
  runs m w (λ a w', w' = w ∧ P a) →
  traced m w (λ r w' new, new = [] ∧ w' = w ∧ ∃ a, r = Ok a ∧ P a).
Proof.
  intros (a & w' & Hm & -> & HP). exists (Ok a), w, [].
  split; [done|]. split; [by rewrite app_nil_r|]. eauto.
Qed.

Lemma summary_row_id row w :
  has_summary_keys row →
  runs (summary_row row) w (λ s w', w' = w ∧ id_cell s = id_cell row).
Proof.
  intros ([pid Hpid] & [owner Howner] & [addr Haddr] & [lat Hlat] & [lon Hlon]).
  unfold summary_row, getitem. rewrite Hpid, Howner, Haddr, Hlat, Hlon.
  eexists _, _. split; [reflexivity|]. split; [done|].
  unfold id_cell. rewrite Hpid. reflexivity.
Qed.

Lemma summary_rows_ids rows w :
  Forall has_summary_keys rows →
  runs (summary_rows rows) w
    (λ summary w', w' = w ∧ Forall2 (λ row s, id_cell s = id_cell row) rows summary).
Proof.
  induction 1 as [|row rows Hrow Hrows IH]; [by apply runs_ret|].
  cbn [summary_rows]. apply runs_bind.
  eapply runs_mono; [by apply summary_row_id|]. intros s ? [-> Hs].
  apply runs_bind. eapply runs_mono; [exact IH|]. intros ss ? [-> Hss].
  apply runs_ret. split; [done|]. by constructor.
Qed.

(** What the steps after the loop append when the two CSV files and the
    report can be written: nothing for no row; otherwise the two CSV
    writes, the report, and the map or the one error line of its handler. *)
Lemma after_loop_traced results w :
  (∀ k, write_fails env k (output_dir +:+ "/data/solar_houses_results.csv") = None) →
  (∀ k, write_fails env k (output_dir +:+ "/data/solar_houses_summary.csv") = None) →
  (∀ k, write_fails env k (output_dir +:+ "/reports/solar_houses_report.md") = None) →
  Forall has_summary_keys results →
  traced (match results with
          | [] => ret results
          | _ =>
              let results_csv := output_dir +:+ "/data/solar_houses_results.csv" in
              let* _ := to_csv env results_csv results in
              let* summary_data := summary_rows results in
              let summary_csv := output_dir +:+ "/data/solar_houses_summary.csv" in
              let* _ := to_csv env summary_csv summary_data in
              let* _ := log INFO (MsgResultsSaved results_csv) in
              let* _ := log INFO (MsgSummarySaved summary_csv) in
              let* _ := _generate_reports env output_dir results in
              let* _ := _create_interactive_map env output_dir results in
              ret results
          end) w
    (λ r _ new, r = Ok results ∧
       match results with
       | [] => new = []
       | _ =>
           ∃ summary map_events,
             Forall2 (λ row s, id_cell s = id_cell row) results summary ∧
             new =
               [ EvCsvWritten (output_dir +:+ "/data/solar_houses_results.csv") results;
                 EvCsvWritten (output_dir +:+ "/data/solar_houses_summary.csv") summary;
                 EvLog INFO (MsgResultsSaved (output_dir +:+ "/data/solar_houses_results.csv"));
                 EvLog INFO (MsgSummarySaved (output_dir +:+ "/data/solar_houses_summary.csv"));
                 EvReportWritten (output_dir +:+ "/reports/solar_houses_report.md");
                 EvLog INFO (MsgReportSaved (output_dir +:+ "/reports/solar_houses_report.md")) ]
               ++ map_events ∧
             (map_events =
                [ EvMapSaved (output_dir +:+ "/interactive_map.html");
                  EvLog INFO (MsgMapSaved (output_dir +:+ "/interactive_map.html")) ] ∨
              ∃ e, map_events = [ EvLog ERROR (MsgMapError e) ])
       end).
Proof.
  intros Hcsv Hsum Hrep Hkeys. destruct results as [|row rows]; [by apply traced_ret|].
  set (results := row :: rows) in *.
  apply traced_bind. unfold to_csv at 1.
  apply traced_bind, traced_tick. intros w1 _ _. cbv beta. rewrite Hcsv.
  apply traced_emit. intros w2 _ _.
  apply traced_bind.
  eapply traced_mono; [by apply traced_same_world, summary_rows_ids|].
  intros r w3 new3 (-> & -> & summary & -> & Hids).
  apply traced_bind. unfold to_csv.
  apply traced_bind, traced_tick. intros w4 _ _. cbv beta. rewrite Hsum.
  apply traced_emit. intros w5 _ _.
  apply traced_bind, traced_emit. intros w6 _ _.
  apply traced_bind, traced_emit. intros w7 _ _.
  apply traced_bind. unfold _generate_reports. subst results. cbn iota.
  apply traced_bind, traced_tick. intros w8 _ _. cbv beta. rewrite Hrep.
  apply traced_bind, traced_emit. intros w9 _ _. apply traced_emit. intros w10 _ _.
  apply traced_bind. unfold _create_interactive_map.
  apply traced_try_except, traced_bind, traced_tick. intros w11 _ _. cbv beta.
  destruct (write_fails env (w_tick w10) _) as [e|].
  - apply traced_raise. apply traced_bind, traced_emit. intros w12 _ _.
    apply traced_ret, traced_ret. split; [done|].
    exists summary. eexists. split; [done|].
    split; [reflexivity | right; by exists e].
  - apply traced_bind, traced_emit. intros w12 _ _.
    apply traced_bind, traced_emit. intros w13 _ _.
    apply traced_ret, traced_ret. split; [done|].
    exists summary. eexists. split; [done|].
    split; [reflexivity | by left].
Qed.

(** The whole run, when the two CSV files and the report can be written:
    five opening lines, the events of the loop, the events after it. *)
Lemma process_properties_traced max_properties location w :
  (∀ k, write_fails env k (output_dir +:+ "/data/solar_houses_results.csv") = None) →
  (∀ k, write_fails env k (output_dir +:+ "/data/solar_houses_summary.csv") = None) →
  (∀ k, write_fails env k (output_dir +:+ "/reports/solar_houses_report.md") = None) →
  traced (process_properties env api_key output_dir max_properties location) w
    (λ r _ new, ∃ results loop_events after_events,
       r = Ok results ∧
       new = [ EvLog INFO (MsgStarting location); EvLog INFO MsgRule; EvLog INFO MsgStep1;
               EvLog INFO (MsgGenerated (Z.to_nat max_properties)); EvLog INFO MsgStep2 ]
             ++ loop_events ++ after_events ∧
       count is_request loop_events = Z.to_nat max_properties ∧
       (length results + count is_processing_error loop_events
          = Z.to_nat max_properties)%nat ∧
       count is_sleep loop_events = length results ∧
       count is_output loop_events = 0%nat ∧
       match results with
       | [] => after_events = []
       | _ =>
           ∃ summary map_events,
             Forall2 (λ row s, id_cell s = id_cell row) results summary ∧
             after_events =
               [ EvCsvWritten (output_dir +:+ "/data/solar_houses_results.csv") results;
                 EvCsvWritten (output_dir +:+ "/data/solar_houses_summary.csv") summary;
                 EvLog INFO (MsgResultsSaved (output_dir +:+ "/data/solar_houses_results.csv"));
                 EvLog INFO (MsgSummarySaved (output_dir +:+ "/data/solar_houses_summary.csv"));
                 EvReportWritten (output_dir +:+ "/reports/solar_houses_report.md");
                 EvLog INFO (MsgReportSaved (output_dir +:+ "/reports/solar_houses_report.md")) ]
               ++ map_events ∧
             (map_events =
                [ EvMapSaved (output_dir +:+ "/interactive_map.html");
                  EvLog INFO (MsgMapSaved (output_dir +:+ "/interactive_map.html")) ] ∨
              ∃ e, map_events = [ EvLog ERROR (MsgMapError e) ])
       end).
Proof.
  intros Hcsv Hsum Hrep. unfold process_properties.
  do 3 (apply traced_bind, traced_emit; intros ? _ _).
  apply traced_bind. eapply traced_mono; [apply traced_quiet, generate_runs|].
  intros r w4 new4 (-> & _ & properties & -> & d & _ & Hmade).
  apply Forall2_seq_lookup in Hmade as [Hlen _].
  do 2 (apply traced_bind, traced_emit; intros ? _ _).
  apply traced_bind. eapply traced_mono.
  { apply traced_and_runs; [apply process_loop_traced|].
    apply (process_loop_rows env api_key output_dir has_summary_keys); [|done].
    intros p path a t. exact (result_row_summary_keys p path a t). }
  intros r w7 loop_events ((out & -> & Hreq & Herr & Hsleep & Hout) & ? & [= <-] & Hkeys).
  eapply traced_mono; [by apply after_loop_traced|].
  intros r w8 after_events [-> Hafter].
  exists out, loop_events, after_events. rewrite Hlen.
  split; [done|]. split; [reflexivity|].
  cbn [length] in *. repeat split; try done; lia.
Qed.

End OrchestratorOutputs.

Lemma filter_count_nil f (events : list event) :
  count f events = 0%nat → List.filter f events = [].
Proof. unfold count. by destruct (List.filter f events). Qed.

(** X11. When the two CSV files and the report can be written, a run
    returns whatever the network, the image writes, the map and the scorer
    do.  It sends exactly one request per generated property, pauses once
    per returned row, and every generated property is either a returned
    row or one logged processing error. *)
Theorem orchestrator_best_effort {rt : PyRuntime} (env : Env)
    (api_key output_dir : string) (max_properties : Z) (location : string) (w : world) :
  (∀ k, write_fails env k (output_dir +:+ "/data/solar_houses_results.csv") = None) →
  (∀ k, write_fails env k (output_dir +:+ "/data/solar_houses_summary.csv") = None) →
  (∀ k, write_fails env k (output_dir +:+ "/reports/solar_houses_report.md") = None) →
  ∃ results w' new,
    process_properties env api_key output_dir max_properties location w = (Ok results, w') ∧
    w_events w' = w_events w ++ new ∧
    count is_request new = Z.to_nat max_properties ∧
    (length results + count is_processing_error new)%nat = Z.to_nat max_properties ∧
    count is_sleep new = length results.
Proof.
  intros Hcsv Hsum Hrep.
  destruct (process_properties_traced env api_key output_dir max_properties location w
              Hcsv Hsum Hrep)
    as (r & w' & new & Hrun & Hevents &
        results & loop_events & after_events & -> & -> & Hreq & Herr & Hsleep & _ & Hafter).
  exists results, w'. eexists. split; [exact Hrun|]. split; [exact Hevents|].
  assert (count is_request after_events = 0 ∧ count is_processing_error after_events = 0 ∧
          count is_sleep after_events = 0)%nat as (Hreq' & Herr' & Hsleep').
  { destruct results; [by subst|].
    destruct Hafter as (summary & map_events & _ & -> & [->|[e ->]]); by repeat split. }
  rewrite !count_app, Hreq, Herr', Hsleep, Hreq', Hsleep'.
  rewrite !count_cons, !count_nil. cbn [is_request is_processing_error is_sleep]. lia.
Qed.

Lemma orchestrator_best_effort_witness :
  ∃ results w' new,
    process_properties (rt := Demo.runtime) Demo.map_refused "KEY" "solar_houses_output"
      6 "New Orleans, LA" (Demo.world0 3) = (Ok results, w') ∧
    w_events w' = w_events (Demo.world0 3) ++ new ∧
    count is_request new = 6%nat ∧
    (length results + count is_processing_error new)%nat = 6%nat ∧
    count is_sleep new = length results.
Proof.
  apply (orchestrator_best_effort (rt := Demo.runtime) Demo.map_refused "KEY"
           "solar_houses_output" 6 "New Orleans, LA" (Demo.world0 3));
    intros k; reflexivity.
Defined.

(** X12. When the two CSV files and the report can be written, a run that
    returns no row writes no CSV file, no report and no map; a run that
    returns rows writes exactly these rows to the results CSV, then to the
    summary CSV one row per result with the same identifier, then the
    report, and last the map, unless the map fails. *)
Theorem orchestrator_outputs {rt : PyRuntime} (env : Env)
    (api_key output_dir : string) (max_properties : Z) (location : string) (w : world) :
  (∀ k, write_fails env k (output_dir +:+ "/data/solar_houses_results.csv") = None) →
  (∀ k, write_fails env k (output_dir +:+ "/data/solar_houses_summary.csv") = None) →
  (∀ k, write_fails env k (output_dir +:+ "/reports/solar_houses_report.md") = None) →
  ∃ results w' new,
    process_properties env api_key output_dir max_properties location w = (Ok results, w') ∧
    w_events w' = w_events w ++ new ∧
    match results with
    | [] => List.filter is_output new = []
    | _ =>
        ∃ summary,
          Forall2 (λ row s, id_cell s = id_cell row) results summary ∧
          let written :=
            [ EvCsvWritten (output_dir +:+ "/data/solar_houses_results.csv") results;
              EvCsvWritten (output_dir +:+ "/data/solar_houses_summary.csv") summary;
              EvReportWritten (output_dir +:+ "/reports/solar_houses_report.md") ] in
          List.filter is_output new = written ∨
          List.filter is_output new =
            written ++ [ EvMapSaved (output_dir +:+ "/interactive_map.html") ]
    end.
Proof.
  intros Hcsv Hsum Hrep.
  destruct (process_properties_traced env api_key output_dir max_properties location w
              Hcsv Hsum Hrep)
    as (r & w' & new & Hrun & Hevents &
        results & loop_events & after_events & -> & -> & _ & _ & _ & Hout & Hafter).
  exists results, w'. eexists. split; [exact Hrun|]. split; [exact Hevents|].
  apply filter_count_nil in Hout.
  rewrite !List.filter_app, Hout. cbn [List.filter is_output app].
  destruct results as [|row rows]; [by subst|].
  destruct Hafter as (summary & map_events & Hids & -> & [->|[e ->]]);
    exists summary; (split; [exact Hids|]); [by right | by left].
Qed.

Lemma orchestrator_outputs_witness :
  ∃ results w' new,
    process_properties (rt := Demo.runtime) Demo.map_refused "KEY" "solar_houses_output"
      6 "New Orleans, LA" (Demo.world0 3) = (Ok results, w') ∧
    w_events w' = w_events (Demo.world0 3) ++ new ∧
    match results with
    | [] => List.filter is_output new = []
    | _ =>
        ∃ summary,
          Forall2 (λ row s, id_cell s = id_cell row) results summary ∧
          let written :=
            [ EvCsvWritten "solar_houses_output/data/solar_houses_results.csv" results;
              EvCsvWritten "solar_houses_output/data/solar_houses_summary.csv" summary;
              EvReportWritten "solar_houses_output/reports/solar_houses_report.md" ] in
          List.filter is_output new = written ∨
          List.filter is_output new =
            written ++ [ EvMapSaved "solar_houses_output/interactive_map.html" ]
    end.
Proof.
  apply (orchestrator_outputs (rt := Demo.runtime) Demo.map_refused "KEY"
           "solar_houses_output" 6 "New Orleans, LA" (Demo.world0 3));
    intros k; reflexivity.
Defined.

Lemma bind_Ok {rt : PyRuntime} {A B} (m : M A) (k : A → M B) w a w1 :
  m w = (Ok a, w1) → bind m k w = k a w1.
Proof. intros Hm. unfold bind. by rewrite Hm. Qed.

(** X13. A failed write of the results CSV is not caught: when at least
    one property is asked for and the scorer's divisions are defined, the
    run raises the exception of that write and returns no collection. *)
Theorem orchestrator_csv_failure_raises {rt : PyRuntime} (env : Env)
    (api_key output_dir : string) (max_properties : Z) (location : string) (w : world)
    (e : exn) :
  1 ≤ max_properties →
  sizing_nonzero →
  (∀ k, write_fails env k (output_dir +:+ "/data/solar_houses_results.csv") = Some e) →
  ∃ w', process_properties env api_key output_dir max_properties location w = (Raise e, w').
Proof.
  intros Hn Hsize Hfail. unfold process_properties.
  do 3 (erewrite bind_Ok; [|reflexivity]).
  destruct (generate_runs max_properties location
              {| w_rng := w_rng w; w_tick := w_tick w;
                 w_events := ((w_events w ++ [EvLog INFO (MsgStarting location)])
                               ++ [EvLog INFO MsgRule]) ++ [EvLog INFO MsgStep1] |})
    as (properties & w4 & Hgen & (d & _ & Hmade) & _).
  apply Forall2_seq_lookup in Hmade as [Hlen _].
  cbn [w_rng w_tick w_events]. rewrite (bind_Ok _ _ _ _ _ Hgen).
  do 2 (erewrite bind_Ok; [|reflexivity]).
  match goal with |- context [bind (process_loop _ _ _ _ _ _ _) _ ?w0] =>
    destruct (process_loop_all env api_key output_dir (λ _, True) properties
                (λ p w1, runs_mono _ _ _ _ (process_one_runs env api_key output_dir p w1 Hsize)
                           (λ _ _ _, I))
                (length properties) 0%nat [] w0 ltac:(done))
      as (out & w7 & Hloop & _ & Hout)
  end.
  rewrite (bind_Ok _ _ _ _ _ Hloop).
  destruct out as [|row rows]; [simpl in Hout; lia|].
  cbv beta iota zeta delta [bind to_csv tick]. rewrite Hfail. by eexists.
Qed.

Lemma orchestrator_csv_failure_raises_witness :
  ∃ w', process_properties (rt := Demo.runtime) Demo.csv_refused "KEY" "solar_houses_output"
          5 "Baton Rouge, LA" (Demo.world0 3) = (Raise OSError, w').
Proof.
  apply (orchestrator_csv_failure_raises (rt := Demo.runtime) Demo.csv_refused "KEY"
           "solar_houses_output" 5 "Baton Rouge, LA" (Demo.world0 3) OSError).
  - lia.
  - exact demo_sizing_nonzero.
  - intros k. reflexivity.
Defined.

(** ** Rows *)

Lemma result_row_cells p path a t :
  let row := result_row p path a t in
  row !! "property_id" = Some (VStr (property_id p)) ∧
  row !! "has_solar_panels" = Some (VBool (has_solar_panels p)) ∧
  row !! "solar_potential_score" = Some (VInt (solar_potential_score a)) ∧
  row !! "payback_period_years" = Some (VNum (payback_period_years a)) ∧
  row !! "roi_percentage" = Some (VNum (roi_percentage a)).
Proof. repeat split; vm_compute; reflexivity. Qed.

(** X14. The display that builds a result row loses nothing: every cell
    of the property dict and every cell of the analysis dict is in the row
    with its value, and with the two image cells and the time stamp the row
    has 23 cells. *)
Theorem result_row_keeps_fields (p : PropertyRecord) (path : option string)
    (a : Analysis) (t : string) :
  property_row p ⊆ result_row p path a t ∧
  analysis_row a ⊆ result_row p path a t ∧
  size (result_row p path a t) = 23%nat.
Proof.
  unfold result_row, splice. split; [|split].
  - etrans; [|apply insert_subseteq; vm_compute; reflexivity].
    etrans; [|apply map_union_subseteq_r].
    + etrans; [|apply insert_subseteq; vm_compute; reflexivity].
      apply insert_subseteq. vm_compute. reflexivity.
    + apply map_disjoint_dom_2. apply (bool_decide_unpack _). vm_compute. reflexivity.
  - etrans; [|apply insert_subseteq; vm_compute; reflexivity].
    apply map_union_subseteq_l.
  - vm_compute. reflexivity.
Qed.

(** X15. The summary row of a result row is the row without its
    [panel_area_sq_meters] and [estimated_savings_annual] cells: no
    [KeyError] is raised and no default value is used. *)
Theorem summary_row_of_result_row {rt : PyRuntime} (p : PropertyRecord)
    (path : option string) (a : Analysis) (t : string) (w : world) :
  summary_row (result_row p path a t) w =
  (Ok (delete "panel_area_sq_meters"
         (delete "estimated_savings_annual" (result_row p path a t))), w).
Proof. vm_compute. reflexivity. Qed.

(** X16. On any dict, the summary raises [KeyError] exactly when one of
    the five keys it reads with [row[key]] is missing ([property_id],
    [owner_name], [address], [latitude], [longitude]); otherwise it returns
    and leaves the world alone. *)
Theorem summary_row_key_error {rt : PyRuntime} (row : gmap string pyval) (w : world) :
  (has_summary_keys row → ∃ s, summary_row row w = (Ok s, w)) ∧
  (¬ has_summary_keys row → summary_row row w = (Raise KeyError, w)).
Proof.
  unfold has_summary_keys, summary_row, getitem, bind, lift, ret. split.
  - intros ([pid ->] & [owner ->] & [addr ->] & [lat ->] & [lon ->]). by eexists.
  - intros Hmissing.
    destruct (row !! "property_id"); [|done].
    destruct (row !! "owner_name"); [|done].
    destruct (row !! "address"); [|done].
    destruct (row !! "latitude"); [|done].
    destruct (row !! "longitude"); [|done].
    destruct Hmissing. repeat split; by eexists.
Qed.

Section OrchestratorRows.

Context {rt : PyRuntime} (env : Env) (api_key output_dir : string).

(** A row of the loop is a [result_row] of the property and of an
    analysis the scorer returned for it. *)
Lemma process_one_inv_scored p w row w' :
  process_one env api_key output_dir p w = (Ok row, w') →
  ∃ path a t w1 w2,
    row = result_row p path a t ∧ analyze_solar_potential p w1 = (Ok a, w2).
Proof.
  intros Hone. unfold process_one in Hone.
  apply bind_Ok_inv in Hone as (path & w1 & _ & Hone).
  apply bind_Ok_inv in Hone as (a & w2 & Hscore & Hone).
  apply bind_Ok_inv in Hone as (k & w3 & _ & Hone).
  injection Hone as <- _. by eauto 10.
Qed.

(** Rows made from properties that satisfy [R] satisfy [P], when every
    row [process_one] makes from such a property does. *)
Lemma process_loop_from (R : PropertyRecord → Prop) (P : gmap string pyval → Prop)
    properties :
  (∀ p w row w', R p → process_one env api_key output_dir p w = (Ok row, w') → P row) →
  Forall R properties →
  ∀ total i results w, Forall P results →
    runs (process_loop env api_key output_dir total i properties results) w
      (λ out _, Forall P out).
Proof.
  intros Hrow HR. induction HR as [|p rest Hp Hrest IH]; intros total i results w Hresults.
  - by apply runs_ret.
  - cbn [process_loop]. apply runs_bind, runs_emit. intros w1 _.
    apply runs_bind, runs_try_except.
    + intros out w2 Hbody. apply IH.
      apply bind_Ok_inv in Hbody as (row & w3 & Hone & Hbody).
      apply bind_Ok_inv in Hbody as ([] & w4 & _ & Hbody).
      injection Hbody as <- _.
      apply Forall_app. split; [done|]. constructor; [|done]. by eapply Hrow.
    + intros e w2 _. apply runs_bind, runs_emit. intros w3 _.
      apply runs_ret. by apply IH.
Qed.

(** The identifiers of the rows are those of the rows given, followed by
    identifiers of the properties, in their order, each at most once. *)
Lemma process_loop_ids properties :
  ∀ total i results w,
    runs (process_loop env api_key output_dir total i properties results) w
      (λ out _, ∃ kept,
         id_cell <$> out = (id_cell <$> results) ++ kept ∧
         kept `sublist_of` ((λ p, Some (VStr (property_id p))) <$> properties)).
Proof.
  induction properties as [|p rest IH]; intros total i results w.
  - apply runs_ret. exists []. by rewrite app_nil_r.
  - cbn [process_loop]. apply runs_bind, runs_emit. intros w1 _.
    apply runs_bind, runs_try_except.
    + intros out w2 Hbody.
      apply bind_Ok_inv in Hbody as (row & w3 & Hone & Hbody).
      apply bind_Ok_inv in Hbody as ([] & w4 & _ & Hbody).
      injection Hbody as <- _.
      apply process_one_inv in Hone as (a & t & ->).
      eapply runs_mono; [apply IH|].
      intros out w5 (kept & Hout & Hkept).
      exists (Some (VStr (property_id p)) :: kept). split.
      * rewrite Hout, fmap_app, <- app_assoc. by f_equal.
      * cbn [fmap list_fmap]. by constructor.
    + intros e w2 _. apply runs_bind, runs_emit. intros w3 _. apply runs_ret.
      eapply runs_mono; [apply IH|].
      intros out w5 (kept & Hout & Hkept). exists kept. split; [done|].
      cbn [fmap list_fmap]. by constructor.
Qed.

(** Whatever the orchestrator returns, it is what its loop returned for
    the properties its generator returned. *)
Lemma process_properties_inv_generated max_properties location w results w' :
  process_properties env api_key output_dir max_properties location w = (Ok results, w') →
  ∃ properties w0 w0' w1 w2,
    generate_realistic_properties max_properties location w0 = (Ok properties, w0') ∧
    process_loop env api_key output_dir (length properties) 0 properties [] w1
      = (Ok results, w2).
Proof.
  intros Hrun. unfold process_properties in Hrun.
  do 3 (apply bind_Ok_inv in Hrun as (? & ? & _ & Hrun)).
  apply bind_Ok_inv in Hrun as (properties & w0' & Hgen & Hrun).
  do 2 (apply bind_Ok_inv in Hrun as (? & ? & _ & Hrun)).
  apply bind_Ok_inv in Hrun as (out & w2 & Hloop & Hrun).
  exists properties. eexists _, w0', _, w2. split; [exact Hgen|].
  destruct out as [|row rows].
  - injection Hrun as <- _. exact Hloop.
  - do 7 (apply bind_Ok_inv in Hrun as (? & ? & _ & Hrun)).
    injection Hrun as <- _. exact Hloop.
Qed.

End OrchestratorRows.

#[local] Instance id_of_index_inj : Inj (=) (=) id_of_index.
Proof.
  intros i j Heq. unfold id_of_index in Heq. apply property_id_inj. congruence.
Qed.

(** X17. The rows a run returns keep the order of generation: their
    identifiers are a sublist of [PROP_000001], [PROP_000002], ... up to
    [max_properties], so no identifier occurs twice. *)
Theorem orchestrator_rows_in_order {rt : PyRuntime} (env : Env)
    (api_key output_dir : string) (max_properties : Z) (location : string)
    (w : world) (results : list (gmap string pyval)) (w' : world) :
  process_properties env api_key output_dir max_properties location w = (Ok results, w') →
  id_cell <$> results `sublist_of` (id_of_index <$> seq 0 (Z.to_nat max_properties)) ∧
  NoDup (id_cell <$> results).
Proof.
  intros Hrun.
  apply process_properties_inv_generated in Hrun
    as (properties & w0 & w0' & w1 & w2 & Hgen & Hloop).
  pose proof (runs_inv _ _ _ _ _ (generate_runs max_properties location w0) Hgen)
    as ((d & _ & Hmade) & _).
  pose proof (runs_inv _ _ _ _ _
                (process_loop_ids env api_key output_dir properties
                   (length properties) 0%nat [] w1) Hloop)
    as (kept & Hids & Hkept).
  cbn [fmap list_fmap app] in Hids.
  assert ((λ p, Some (VStr (property_id p))) <$> properties
          = id_of_index <$> seq 0 (Z.to_nat max_properties)) as Hgenerated.
  { clear -Hmade. induction Hmade as [|i p indices made Hp Hmade IH]; [done|].
    cbn [fmap list_fmap]. f_equal; [|exact IH].
    destruct Hp as [-> _]. reflexivity. }
  rewrite Hids. rewrite Hgenerated in Hkept. split; [done|].
  eapply sublist_NoDup; [|exact Hkept].
  apply (NoDup_fmap_2 id_of_index), NoDup_seq.
Qed.

Lemma orchestrator_rows_in_order_witness :
  ∃ results w',
    process_properties (rt := Demo.runtime) Demo.flaky "KEY" "solar_houses_output"
      4 "Baton Rouge, LA" (Demo.world0 7) = (Ok results, w') ∧
    id_cell <$> results `sublist_of` (id_of_index <$> seq 0 4) ∧
    NoDup (id_cell <$> results).
Proof.
  assert (Demo.returned 4
            (process_properties (rt := Demo.runtime) Demo.flaky "KEY" "solar_houses_output"
               4 "Baton Rouge, LA" (Demo.world0 7)) = true) as Hreturned
    by (vm_compute; reflexivity).
  destruct (process_properties (rt := Demo.runtime) Demo.flaky "KEY" "solar_houses_output"
              4 "Baton Rouge, LA" (Demo.world0 7)) as [[results|e] w'] eqn:Hrun;
    [|discriminate].
  exists results, w'. split; [reflexivity|].
  exact (orchestrator_rows_in_order (rt := Demo.runtime) Demo.flaky
           "KEY" "solar_houses_output" 4 "Baton Rouge, LA" (Demo.world0 7)
           results w' Hrun).
Defined.

Lemma analyze_score_inv {rt : PyRuntime} p w a w' :
  analyze_solar_potential p w = (Ok a, w') →
  if has_solar_panels p
  then solar_potential_score a = 100 ∧ payback_period_years a = Int 0 ∧
       roi_percentage a = Int 100
  else solar_potential_score a = Z.min 100 (base_score p).
Proof.
  intros Hrun. unfold analyze_solar_potential in Hrun.
  destruct (has_solar_panels p).
  - by injection Hrun as <- _.
  - unfold bind, random_uniform, random_randint, draw, lift, ret in Hrun.
    destruct (uniform 6 12 (w_rng w)) as [x g1]. cbn [w_rng] in Hrun.
    destruct (randint 600 1800 g1) as [s g2].
    destruct (num_truediv _ (Int s)); [|discriminate].
    destruct (num_truediv (Int _) _); [|discriminate].
    by injection Hrun as <- _.
Qed.

Lemma base_score_generated p : roof_type p ∈ roof_types → 60 ≤ base_score p.
Proof.
  intros Hroof. rewrite base_score_spec.
  unfold spec_base_sum, spec_age_bonus, spec_value_bonus.
  assert (10 ≤ spec_roof_bonus (roof_type p)) as Hbonus.
  { unfold roof_types in Hroof. set_unfold in Hroof.
    destruct Hroof as [->|[->|[->|[->|[]]]]]; by vm_compute. }
  repeat case_decide; lia.
Qed.

Lemma result_row_scored {rt : PyRuntime} p path a t (w w' : world) :
  roof_type p ∈ roof_types →
  analyze_solar_potential p w = (Ok a, w') →
  scored_in_range (result_row p path a t).
Proof.
  intros Hroof Hscore. apply analyze_score_inv in Hscore.
  destruct (result_row_cells p path a t) as (_ & Hsolar & Hcell & Hpayback & Hroi).
  exists (solar_potential_score a). split; [exact Hcell|].
  pose proof (base_score_generated p Hroof) as Hbase.
  rewrite Hsolar, Hpayback, Hroi.
  destruct (has_solar_panels p).
  - destruct Hscore as (-> & -> & ->). split; [lia|]. done.
  - rewrite Hscore. split; [lia|]. intros [=].
Qed.

Lemma result_row_one_tier p path a t : in_one_tier (result_row p path a t).
Proof.
  destruct (result_row_cells p path a t) as (_ & Hsolar & Hcell & _).
  unfold in_one_tier, cell_is, score_gt, score_le. rewrite Hsolar, Hcell.
  unfold VInt. destruct (has_solar_panels p); cbn.
  - by left.
  - right. destruct (decide (solar_potential_score a > 70)).
    + left. rewrite (bool_decide_eq_true_2 (solar_potential_score a > 70)) by done.
      by rewrite (bool_decide_eq_false_2 (solar_potential_score a ≤ 70)) by lia.
    + right. rewrite (bool_decide_eq_false_2 (solar_potential_score a > 70)) by done.
      by rewrite (bool_decide_eq_true_2 (solar_potential_score a ≤ 70)) by lia.
Qed.

Lemma one_tier_lengths (results : list (gmap string pyval)) :
  Forall in_one_tier results →
  (length (solar_properties results) + length (high_potential results)
   + length (other_properties results))%nat = length results.
Proof.
  unfold solar_properties, high_potential, other_properties.
  induction 1 as [|row rows Hrow Hrows IH]; [done|].
  cbn [List.filter length].
  destruct Hrow as [(-> & -> & ->)|[(-> & -> & ->)|(-> & -> & ->)]]; cbn [length]; lia.
Qed.

(** X18. Every row a run returns carries an integer score from 60 to
    100, and a row with panels carries score 100, payback 0 and ROI 100:
    the generator only draws roof types the scorer rewards. *)
Theorem orchestrator_rows_scored {rt : PyRuntime} (env : Env)
    (api_key output_dir : string) (max_properties : Z) (location : string)
    (w : world) (results : list (gmap string pyval)) (w' : world) :
  process_properties env api_key output_dir max_properties location w = (Ok results, w') →
  Forall scored_in_range results.
Proof.
  intros Hrun.
  apply process_properties_inv_generated in Hrun
    as (properties & w0 & w0' & w1 & w2 & Hgen & Hloop).
  pose proof (runs_inv _ _ _ _ _ (generate_draws max_properties location w0) Hgen)
    as ((d & _ & Hdrawn) & _).
  eapply (runs_inv _ _ (λ out _, Forall scored_in_range out)); [|exact Hloop].
  apply (process_loop_from env api_key output_dir (λ p, roof_type p ∈ roof_types));
    [| |done].
  - intros p w3 row w4 Hroof Hone.
    apply process_one_inv_scored in Hone as (path & a & t & w5 & w6 & -> & Hscore).
    by eapply result_row_scored.
  - clear -Hdrawn. induction Hdrawn as [|i p indices made Hp Hmade IH]; [done|].
    constructor; [|exact IH]. by destruct Hp as (_ & _ & Hroof & _).
Qed.

Lemma orchestrator_rows_scored_witness :
  ∃ results w',
    process_properties (rt := Demo.runtime) Demo.flaky "KEY" "solar_houses_output"
      4 "Baton Rouge, LA" (Demo.world0 7) = (Ok results, w') ∧
    Forall scored_in_range results.
Proof.
  assert (Demo.returned 4
            (process_properties (rt := Demo.runtime) Demo.flaky "KEY" "solar_houses_output"
               4 "Baton Rouge, LA" (Demo.world0 7)) = true) as Hreturned
    by (vm_compute; reflexivity).
  destruct (process_properties (rt := Demo.runtime) Demo.flaky "KEY" "solar_houses_output"
              4 "Baton Rouge, LA" (Demo.world0 7)) as [[results|e] w'] eqn:Hrun;
    [|discriminate].
  exists results, w'. split; [reflexivity|].
  exact (orchestrator_rows_scored (rt := Demo.runtime) Demo.flaky
           "KEY" "solar_houses_output" 4 "Baton Rouge, LA" (Demo.world0 7)
           results w' Hrun).
Defined.

(** X19. The three selections of the report and of the map split the
    returned rows: every row is in exactly one of [solar_properties],
    [high_potential] (no panels, score above 70) and [other_properties]
    (no panels, score at most 70), so every property gets one marker. *)
Theorem orchestrator_rows_one_tier {rt : PyRuntime} (env : Env)
    (api_key output_dir : string) (max_properties : Z) (location : string)
    (w : world) (results : list (gmap string pyval)) (w' : world) :
  process_properties env api_key output_dir max_properties location w = (Ok results, w') →
  Forall in_one_tier results ∧
  (length (solar_properties results) + length (high_potential results)
   + length (other_properties results))%nat = length results.
Proof.
  intros Hrun.
  apply process_properties_inv in Hrun as (properties & w1 & w2 & Hloop).
  assert (Forall in_one_tier results) as Htiers.
  { eapply (runs_inv _ _ (λ out _, Forall in_one_tier out)); [|exact Hloop].
    apply process_loop_rows; [|done].
    intros p path a t. apply result_row_one_tier. }
  split; [exact Htiers | by apply one_tier_lengths].
Qed.

Lemma orchestrator_rows_one_tier_witness :
  ∃ results w',
    process_properties (rt := Demo.runtime) Demo.flaky "KEY" "solar_houses_output"
      4 "Baton Rouge, LA" (Demo.world0 7) = (Ok results, w') ∧
    Forall in_one_tier results ∧
    (length (solar_properties results) + length (high_potential results)
     + length (other_properties results))%nat = length results.
Proof.
  assert (Demo.returned 4
            (process_properties (rt := Demo.runtime) Demo.flaky "KEY" "solar_houses_output"
               4 "Baton Rouge, LA" (Demo.world0 7)) = true) as Hreturned
    by (vm_compute; reflexivity).
  destruct (process_properties (rt := Demo.runtime) Demo.flaky "KEY" "solar_houses_output"
              4 "Baton Rouge, LA" (Demo.world0 7)) as [[results|e] w'] eqn:Hrun;
    [|discriminate].
  exists results, w'. split; [reflexivity|].
  exact (orchestrator_rows_one_tier (rt := Demo.runtime) Demo.flaky
           "KEY" "solar_houses_output" 4 "Baton Rouge, LA" (Demo.world0 7)
           results w' Hrun).
Defined.

(** X20. In every row a run returns, the image path is either [None] or
    the file name built from the row's own latitude and longitude at zoom
    19, under [house_images] in the output directory. *)
Theorem orchestrator_rows_image_path {rt : PyRuntime} (env : Env)
    (api_key output_dir : string) (max_properties : Z) (location : string)
    (w : world) (results : list (gmap string pyval)) (w' : world) :
  process_properties env api_key output_dir max_properties location w = (Ok results, w') →
  Forall (λ row, ∃ lat lon,
            row !! "latitude" = Some (VFloat lat) ∧
            row !! "longitude" = Some (VFloat lon) ∧
            (row !! "house_image_path" = Some VNone ∨
             row !! "house_image_path" =
               Some (VStr (output_dir +:+ "/house_images/house_" +:+ float_str lat +:+ "_"
                           +:+ float_str lon +:+ "_zoom19.png")))) results.
Proof.
  intros Hrun.
  apply process_properties_inv in Hrun as (properties & w1 & w2 & Hloop).
  eapply (runs_inv _ _ (λ out _, Forall _ out)); [|exact Hloop].
  apply (process_loop_from env api_key output_dir (λ _, True)).
  - intros p w3 row w4 _ Hone.
    apply process_one_inv in Hone as (a & t & ->).
    exists (latitude p), (longitude p).
    destruct (result_row_image_fields p
                (fetched env output_dir (latitude p) (longitude p) 19 w3) a t)
      as [Hpath _].
    split; [vm_compute; reflexivity|]. split; [vm_compute; reflexivity|].
    rewrite Hpath. unfold fetched.
    destruct (http_get env (w_tick w3) (latitude p) (longitude p) 19) as [code content|e];
      [|by left].
    case_bool_decide; [|by left].
    destruct (write_fails env (S (w_tick w3)) _); [by left|]. right. reflexivity.
  - by apply Forall_true.
  - done.
Qed.

Lemma orchestrator_rows_image_path_witness :
  ∃ results w',
    process_properties (rt := Demo.runtime) Demo.flaky "KEY" "solar_houses_output"
      4 "Baton Rouge, LA" (Demo.world0 7) = (Ok results, w') ∧
    Forall (λ row, ∃ lat lon,
              row !! "latitude" = Some (VFloat lat) ∧
              row !! "longitude" = Some (VFloat lon) ∧
              (row !! "house_image_path" = Some VNone ∨
               row !! "house_image_path" =
                 Some (VStr ("solar_houses_output" +:+ "/house_images/house_"
                             +:+ float_str (PyRuntime := Demo.runtime) lat +:+ "_"
                             +:+ float_str (PyRuntime := Demo.runtime) lon
                             +:+ "_zoom19.png")))) results.
Proof.
  assert (Demo.returned 4
            (process_properties (rt := Demo.runtime) Demo.flaky "KEY" "solar_houses_output"
               4 "Baton Rouge, LA" (Demo.world0 7)) = true) as Hreturned
    by (vm_compute; reflexivity).
  destruct (process_properties (rt := Demo.runtime) Demo.flaky "KEY" "solar_houses_output"
              4 "Baton Rouge, LA" (Demo.world0 7)) as [[results|e] w'] eqn:Hrun;
    [|discriminate].
  exists results, w'. split; [reflexivity|].
  exact (orchestrator_rows_image_path (rt := Demo.runtime) Demo.flaky
           "KEY" "solar_houses_output" 4 "Baton Rouge, LA" (Demo.world0 7)
           results w' Hrun).
Defined.
